(** * The pricing / stock cascade of [backend/products/models.py]

    A shallow embedding of the three models [ProductComponent], [Product]
    and [ProductComposition], of their properties and of the signal
    receivers that Django runs around [save()] and [delete()].

    - Python [int] fields are [Z] (Python integers do not wrap).
    - [Decimal] fields are exact rationals [Q]; Python compares decimals
      by value, which is [Qeq] here.  A table holds the field values of
      the instance that was saved; what a [DecimalField] column keeps of
      such a value, rounded to its decimal places, is [DecimalField_column].
      The range check of the small-integer columns is not modelled.
    - A table is the list of its rows in the order the database returns
      them; [Model.objects.filter(...)] keeps that order.
    - Effects are explicit: a computation takes the store and returns the
      store it leaves behind together with an exception or a value.  The
      store survives an exception, as no receiver opens a transaction. *)

From Stdlib Require Import ZArith QArith List Bool Lia Lqa String Permutation.
Import ListNotations.
Local Open Scope Z_scope.

(** ** Rows *)

(** Every Django model has a primary key. *)
Class Model (T : Type) := pk : T -> Z.

Module ProductComponent.
Record t := mk {
  id : Z;
  title : string;
  slug : string;
  price : Q;
  new_arrival : Z;
  quantity_in_stock : Z;
  quantity_of_sold : Z;
  available : bool;
  show_in_filter : bool
}.
End ProductComponent.

Module Product.
Record t := mk {
  id : Z;
  category : Z;
  title : string;
  slug : string;
  preview : string;
  price : Q;
  discount : Z;
  new_price : Q;
  status : Z
}.

Definition set_price (v : Q) (p : t) : t :=
  mk (id p) (category p) (title p) (slug p) (preview p)
     v (discount p) (new_price p) (status p).

Definition set_new_price (v : Q) (p : t) : t :=
  mk (id p) (category p) (title p) (slug p) (preview p)
     (price p) (discount p) v (status p).

Definition set_status (v : Z) (p : t) : t :=
  mk (id p) (category p) (title p) (slug p) (preview p)
     (price p) (discount p) (new_price p) v.
End Product.

Module ProductComposition.
Record t := mk {
  id : Z;
  product : Z;      (* ForeignKey(Product, on_delete=CASCADE) *)
  component : Z;    (* ForeignKey(ProductComponent, on_delete=PROTECT) *)
  quantity : Z
}.
End ProductComposition.

#[export] Instance ProductComponent_Model : Model ProductComponent.t :=
  ProductComponent.id.
#[export] Instance Product_Model : Model Product.t := Product.id.
#[export] Instance ProductComposition_Model : Model ProductComposition.t :=
  ProductComposition.id.

Definition STATUS_REVIEW : Z := 1.
Definition STATUS_AVAILABLE : Z := 2.
Definition STATUS_ONLY_ORDER : Z := 3.
Definition STATUS_UNAVAILABLE : Z := 4.

(** [Product.STATUS_CHOICES], entry for entry. *)
Definition STATUS_CHOICES : list (Z * string) :=
  [ (STATUS_REVIEW, "На проверке"%string);
    (STATUS_AVAILABLE, "Доступно"%string);
    (STATUS_ONLY_ORDER, "Только под заказ"%string);
    (STATUS_AVAILABLE, "Недоступно"%string) ].

(** A value is one of the choices of a field when it is the key of an entry. *)
Definition is_choice (choices : list (Z * string)) (v : Z) : bool :=
  existsb (fun entry => fst entry =? v) choices.

(** ** Tables *)

Section Table.
Context {T : Type} `{Model T}.

(** [objects.get(pk=k)] *)
Definition objects_get (k : Z) (rows : list T) : option T :=
  find (fun r => pk r =? k) rows.

Definition has_pk (k : Z) (rows : list T) : bool :=
  existsb (fun r => pk r =? k) rows.

(** [UPDATE ... WHERE pk = pk r] *)
Definition db_update (r : T) (rows : list T) : list T :=
  map (fun x => if pk x =? pk r then r else x) rows.

(** [Model.save()] once the pre-save receivers have run: an UPDATE, and an
    INSERT when the UPDATE matched no row. *)
Definition db_save (r : T) (rows : list T) : list T :=
  if has_pk (pk r) rows then db_update r rows else rows ++ [r].

(** [DELETE ... WHERE pk = k] *)
Definition db_delete (k : Z) (rows : list T) : list T :=
  filter (fun r => negb (pk r =? k)) rows.

Fixpoint unique_pks (rows : list T) : bool :=
  match rows with
  | [] => true
  | r :: rows' => negb (has_pk (pk r) rows') && unique_pks rows'
  end.
End Table.

(** The exceptions of the cascade: a foreign key or [get()] that finds no
    row, an integer division by zero, the deletion of a protected row. *)
Inductive exn := DoesNotExist | ZeroDivisionError | ProtectedError.

(** Python's [a // b] on integers; [Z.div] rounds towards minus infinity as
    [//] does. *)
Definition py_floordiv (a b : Z) : exn + Z :=
  if b =? 0 then inl ZeroDivisionError else inr (a / b).

(** Python's [min] of a non-empty list, scanning from the left. *)
Definition py_min (x : Z) (xs : list Z) : Z :=
  fold_left (fun m y => if y <? m then y else m) xs x.

(** ** Decimal columns *)

(** [Decimal.quantize] to [places] decimal places under the default context,
    whose rounding is ROUND_HALF_EVEN: the nearest multiple of 10^-places, a
    tie going to the even one.  The result counts units of 10^-places. *)
Definition round_half_even (v : Q) (places : Z) : Z :=
  let n := Qnum v * 10 ^ places in
  let d := Zpos (Qden v) in
  let f := n / d in
  let r := n mod d in
  match 2 * r ?= d with
  | Lt => f
  | Gt => f + 1
  | Eq => if Z.even f then f else f + 1
  end.

(** What a [DecimalField(max_digits, decimal_places)] column keeps of a field
    value when the row is written ([format_number] of the database layer):
    the value quantized to [decimal_places]; the write is refused when that
    takes more than [max_digits] digits. *)
Definition DecimalField_column (max_digits decimal_places : Z) (v : Q)
  : option Q :=
  let n := round_half_even v decimal_places in
  if Z.abs n <? 10 ^ max_digits
  then Some (n # Z.to_pos (10 ^ decimal_places))
  else None.

(** [Product.price] and [Product.new_price] are declared with
    [max_digits=10, decimal_places=2]. *)
Definition Product_price_column (p : Product.t) : option Q :=
  DecimalField_column 10 2 (Product.price p).

Definition Product_new_price_column (p : Product.t) : option Q :=
  DecimalField_column 10 2 (Product.new_price p).

(** An order item for the worked examples: its primary key, the product it
    refers to and the price it caches. *)
Module LineItem.
Record t := mk {
  id : Z;
  product : Z;
  price : Q
}.

Definition resync (p : Product.t) (i : t) : t :=
  mk (id i) (product i) (Product.new_price p).

(** The bouquet, ordered once. *)
Definition bouquet_on_order : t := mk 1 1 0%Q.
End LineItem.

Section Cascade.

(** [OrderItem] is a model of the [orders] application.  Only its reverse
    relation [product.orderitem_set] and its [save()] are used here. *)
Context {OrderItem : Type}.
Variable OrderItem_id : OrderItem -> Z.
Variable OrderItem_product : OrderItem -> Z.

(** Modelled from the spec: [OrderItem.save()] is not in this module; it
    re-derives the snapshot fields an order item caches from its product
    and touches no product, component or composition row. *)
Variable OrderItem_resync : Product.t -> OrderItem -> OrderItem.

#[local] Instance OrderItem_Model : Model OrderItem := OrderItem_id.

Record DB := mkDB {
  product_table : list Product.t;
  component_table : list ProductComponent.t;
  composition_table : list ProductComposition.t;
  orderitem_table : list OrderItem
}.

Definition with_products (rows : list Product.t) (db : DB) : DB :=
  mkDB rows (component_table db) (composition_table db) (orderitem_table db).
Definition with_components (rows : list ProductComponent.t) (db : DB) : DB :=
  mkDB (product_table db) rows (composition_table db) (orderitem_table db).
Definition with_compositions (rows : list ProductComposition.t) (db : DB) : DB :=
  mkDB (product_table db) (component_table db) rows (orderitem_table db).
Definition with_orderitems (rows : list OrderItem) (db : DB) : DB :=
  mkDB (product_table db) (component_table db) (composition_table db) rows.

(** ** The monad of receivers *)

Definition M (A : Type) : Type := DB -> DB * (exn + A).

Definition ret {A} (a : A) : M A := fun db => (db, inr a).
Definition raise {A} (e : exn) : M A := fun db => (db, inl e).
Definition bind {A B} (m : M A) (k : A -> M B) : M B :=
  fun db =>
    match m db with
    | (db', inl e) => (db', inl e)
    | (db', inr a) => k a db'
    end.
Definition lift {A} (r : exn + A) : M A := fun db => (db, r).
Definition query {A} (q : DB -> A) : M A := fun db => (db, inr (q db)).
Definition execute (f : DB -> DB) : M unit := fun db => (f db, inr tt).

Notation "x <- m ;; k" := (bind m (fun x => k))
  (at level 100, m at next level, right associativity).
Notation "m ;;; k" := (bind m (fun _ => k))
  (at level 100, right associativity).

(** [for x in xs: body(x)] *)
Fixpoint for_each {A} (xs : list A) (body : A -> M unit) : M unit :=
  match xs with
  | [] => ret tt
  | x :: xs' => body x ;;; for_each xs' body
  end.

(** A [for] loop that carries a local variable. *)
Fixpoint for_fold {A S} (xs : list A) (acc : S) (body : S -> A -> M S) : M S :=
  match xs with
  | [] => ret acc
  | x :: xs' => acc' <- body acc x ;; for_fold xs' acc' body
  end.

(** Following a foreign key: [instance.<fk>] loads the row it refers to. *)
Definition fetch {T} `{Model T} (table : DB -> list T) (k : Z) : M T :=
  fun db =>
    match objects_get k (table db) with
    | Some r => (db, inr r)
    | None => (db, inl DoesNotExist)
    end.

(** ** ProductComponent *)

Definition productcomposition_set_of_component (self : ProductComponent.t)
  : M (list ProductComposition.t) :=
  query (fun db =>
    filter (fun c => ProductComposition.component c =? ProductComponent.id self)
           (composition_table db)).

Definition add_new_arrival (self : ProductComponent.t) : ProductComponent.t :=
  ProductComponent.mk
    (ProductComponent.id self) (ProductComponent.title self)
    (ProductComponent.slug self) (ProductComponent.price self)
    0
    (ProductComponent.quantity_in_stock self + ProductComponent.new_arrival self)
    (ProductComponent.quantity_of_sold self)
    (ProductComponent.available self) (ProductComponent.show_in_filter self).

(** [@receiver(pre_save, sender=ProductComponent)] *)
Definition recalculate_quantity_in_stock_before_save
  (instance : ProductComponent.t) : M ProductComponent.t :=
  ret (add_new_arrival instance).

(** ** Product *)

Definition productcomposition_set (self : Product.t)
  : M (list ProductComposition.t) :=
  query (fun db =>
    filter (fun c => ProductComposition.product c =? Product.id self)
           (composition_table db)).

Definition orderitem_set (self : Product.t) : M (list OrderItem) :=
  query (fun db =>
    filter (fun i => OrderItem_product i =? Product.id self)
           (orderitem_table db)).

(** [ProductComposition.get_composition_price] *)
Definition get_composition_price (self : ProductComposition.t) : M Q :=
  component <- fetch component_table (ProductComposition.component self) ;;
  ret (inject_Z (ProductComposition.quantity self)
       * ProductComponent.price component)%Q.

Definition get_price (self : Product.t) : M Q :=
  compositions <- productcomposition_set self ;;
  for_fold compositions 0%Q (fun price composition =>
    line <- get_composition_price composition ;;
    ret (price + line)%Q).

Definition get_new_price (self : Product.t) : Q :=
  ((Product.price self / inject_Z 100)
   * inject_Z (100 - Product.discount self))%Q.

Definition get_available_quantity_of_products (self : Product.t) : M Z :=
  compositions <- productcomposition_set self ;;
  number_of_composition_available <-
    for_fold compositions [] (fun acc composition =>
      if ProductComposition.quantity composition >? 0 then
        component <- fetch component_table
                       (ProductComposition.component composition) ;;
        quantity <- lift (py_floordiv
                            (ProductComponent.quantity_in_stock component)
                            (ProductComposition.quantity composition)) ;;
        ret (acc ++ [quantity])
      else ret acc) ;;
  match number_of_composition_available with
  | x :: xs => ret (py_min x xs)
  | [] => ret 0
  end.

Definition get_status (self : Product.t) : M Z :=
  n <- get_available_quantity_of_products self ;;
  if n >? 0 then ret STATUS_AVAILABLE else ret STATUS_ONLY_ORDER.

(** The [return] sits inside the loop: the first composition decides, and
    a product without compositions yields [None]. *)
Definition get_productcomponent_status (self : Product.t) : M (option bool) :=
  compositions <- productcomposition_set self ;;
  match compositions with
  | composition :: _ =>
      component <- fetch component_table
                     (ProductComposition.component composition) ;;
      ret (Some (ProductComponent.available component))
  | [] => ret None
  end.

(** Modelled from the spec: [OrderItem.save()] belongs to the [orders]
    application.  The item re-derives what it caches from the product it
    refers to ([OrderItem_resync]) and its own row is written. *)
Definition OrderItem_save (item : OrderItem) : M unit :=
  product <- fetch product_table (OrderItem_product item) ;;
  execute (fun db =>
    with_orderitems (db_save (OrderItem_resync product item)
                             (orderitem_table db)) db).

Definition save_orderitem (self : Product.t) : M unit :=
  items <- orderitem_set self ;;
  for_each items OrderItem_save.

(** [@receiver(pre_save, sender=Product)] *)
Definition recalculate_new_price (instance : Product.t) : M Product.t :=
  s <- get_productcomponent_status instance ;;
  let product :=
    match s with
    | Some false => Product.set_status STATUS_UNAVAILABLE instance
    | _ => instance
    end in
  ret (Product.set_new_price (get_new_price product) product).

(** [@receiver(post_save, sender=Product)] *)
Definition save_orderitem_after_save (instance : Product.t) : M unit :=
  save_orderitem instance.

(** [Product.save()]: pre-save receiver, the row write, post-save receiver.
    The instance is mutated by the pre-save receiver, so it is returned. *)
Definition Product_save (self : Product.t) : M Product.t :=
  self <- recalculate_new_price self ;;
  execute (fun db => with_products (db_save self (product_table db)) db) ;;;
  save_orderitem_after_save self ;;;
  ret self.

(** ** ProductComposition *)

(** The body shared by the post-save and the post-delete receiver. *)
Definition save_product_after_save (instance : ProductComposition.t) : M unit :=
  product <- fetch product_table (ProductComposition.product instance) ;;
  price <- get_price product ;;
  let product := Product.set_price price product in
  status <- get_status product ;;
  let product := Product.set_status status product in
  Product_save product ;;;
  ret tt.

Definition save_product_after_delete (instance : ProductComposition.t) : M unit :=
  product <- fetch product_table (ProductComposition.product instance) ;;
  price <- get_price product ;;
  let product := Product.set_price price product in
  status <- get_status product ;;
  let product := Product.set_status status product in
  Product_save product ;;;
  ret tt.

(** [ProductComposition.save()]: the row write, then the post-save receiver. *)
Definition ProductComposition_save (self : ProductComposition.t) : M unit :=
  execute (fun db =>
    with_compositions (db_save self (composition_table db)) db) ;;;
  save_product_after_save self.

(** [ProductComposition.delete()]: the row is removed, then the post-delete
    receiver runs on the instance that was deleted. *)
Definition ProductComposition_delete (self : ProductComposition.t) : M unit :=
  execute (fun db =>
    with_compositions
      (db_delete (ProductComposition.id self) (composition_table db)) db) ;;;
  save_product_after_delete self.

(** ** ProductComponent, continued *)

Definition save_related_productcompositions (self : ProductComponent.t) : M unit :=
  compositions <- productcomposition_set_of_component self ;;
  for_each compositions ProductComposition_save.

(** [@receiver(post_save, sender=ProductComponent)] *)
Definition save_productcomposition (instance : ProductComponent.t) : M unit :=
  save_related_productcompositions instance.

Definition ProductComponent_save (self : ProductComponent.t)
  : M ProductComponent.t :=
  self <- recalculate_quantity_in_stock_before_save self ;;
  execute (fun db => with_components (db_save self (component_table db)) db) ;;;
  save_productcomposition self ;;;
  ret self.

(** [ProductComponent.delete()]: [on_delete=PROTECT] on
    [ProductComposition.component] makes the collector raise before any
    row is removed while a composition refers to the component. *)
Definition ProductComponent_delete (self : ProductComponent.t) : M unit :=
  protected <- productcomposition_set_of_component self ;;
  match protected with
  | _ :: _ => raise ProtectedError
  | [] =>
      execute (fun db =>
        with_components
          (db_delete (ProductComponent.id self) (component_table db)) db)
  end.

(** ** Reading the store

    The vocabulary of the statements below, written as plain functions of
    the store. *)

(** The compositions owned by product [pid], in table order. *)
Definition compositions_of (pid : Z) (db : DB) : list ProductComposition.t :=
  filter (fun c => ProductComposition.product c =? pid) (composition_table db).

(** The compositions that refer to component [cid], in table order. *)
Definition compositions_using (cid : Z) (db : DB) : list ProductComposition.t :=
  filter (fun c => ProductComposition.component c =? cid) (composition_table db).

Definition component_of (db : DB) (c : ProductComposition.t)
  : option ProductComponent.t :=
  objects_get (ProductComposition.component c) (component_table db).

(** quantity x unit price of one composition *)
Definition line_cost (db : DB) (c : ProductComposition.t) : Q :=
  match component_of db c with
  | Some x => (inject_Z (ProductComposition.quantity c) * ProductComponent.price x)%Q
  | None => 0%Q
  end.

Definition sum_of_line_costs (db : DB) (pid : Z) : Q :=
  fold_right Qplus 0%Q (map (line_cost db) (compositions_of pid db)).

Definition stock_of (db : DB) (c : ProductComposition.t) : Z :=
  match component_of db c with
  | Some x => ProductComponent.quantity_in_stock x
  | None => 0
  end.

(** How many product units each composition with a positive quantity can
    supply from the stock of its component. *)
Definition units (db : DB) (pid : Z) : list Z :=
  map (fun c => stock_of db c / ProductComposition.quantity c)
      (filter (fun c => 0 <? ProductComposition.quantity c)
              (compositions_of pid db)).

Definition minimum (l : list Z) : option Z :=
  match l with
  | [] => None
  | x :: xs => Some (fold_right Z.min x xs)
  end.

Definition component_available (db : DB) (c : ProductComposition.t) : bool :=
  match component_of db c with
  | Some x => ProductComponent.available x
  | None => false
  end.

Definition all_components_available (db : DB) (pid : Z) : bool :=
  forallb (component_available db) (compositions_of pid db).

(** Referential integrity of the composition table: primary keys are
    unique and both foreign keys of every row resolve. *)
Definition fk_resolves (db : DB) (c : ProductComposition.t) : bool :=
  has_pk (ProductComposition.product c) (product_table db)
  && has_pk (ProductComposition.component c) (component_table db).

Definition integrity (db : DB) : bool :=
  unique_pks (composition_table db)
  && forallb (fk_resolves db) (composition_table db).

(** ** A small shop

    The scenario of the specification: roses at 5 apiece with 10 in stock,
    and a bouquet made of 2 roses.  A second store adds lilies that are not
    available. *)

Definition rose : ProductComponent.t :=
  ProductComponent.mk 1 "Rose"%string "rose"%string 5%Q 0 10 0 true true.

Definition lily : ProductComponent.t :=
  ProductComponent.mk 2 "Lily"%string "lily"%string 3%Q 0 10 0 false true.

Definition bouquet : Product.t :=
  Product.mk 1 1 "Bouquet"%string "bouquet"%string
             "products/previews/bouquet.png"%string
             100%Q 20 0%Q STATUS_AVAILABLE.

Definition roses_in_bouquet : ProductComposition.t :=
  ProductComposition.mk 1 1 1 2.

Definition lilies_in_bouquet : ProductComposition.t :=
  ProductComposition.mk 2 1 2 1.

Definition shop : DB := mkDB [bouquet] [rose] [roses_in_bouquet] [].

(** The same shop with order items on its books. *)
Definition shop_with_orders (items : list OrderItem) : DB :=
  with_orderitems items shop.

Definition mixed_shop : DB :=
  mkDB [bouquet] [rose; lily] [roses_in_bouquet; lilies_in_bouquet] [].

(** A product nothing has been composed for yet. *)
Definition wreath : Product.t :=
  Product.mk 2 1 "Wreath"%string "wreath"%string
             "products/previews/wreath.png"%string
             0%Q 0 0%Q STATUS_REVIEW.

(** The bouquet with the lilies entered first. *)
Definition lily_first_shop : DB :=
  mkDB [bouquet] [rose; lily] [lilies_in_bouquet; roses_in_bouquet] [].

(** A third rose for the bouquet, not in the table yet. *)
Definition one_more_rose : ProductComposition.t :=
  ProductComposition.mk 3 1 1 1.

(** Five roses arrive. *)
Definition rose_restocked : ProductComponent.t :=
  ProductComponent.mk 1 "Rose"%string "rose"%string 5%Q 5 10 0 true true.

(** The shop once the wreath is on offer as well. *)
Definition two_product_shop : DB :=
  mkDB [bouquet; wreath] [rose] [roses_in_bouquet] [].

(** A posy of two roses whose row is up to date, beside the wreath. *)
Definition posy : Product.t :=
  Product.mk 1 1 "Posy"%string "posy"%string
             "products/previews/posy.png"%string
             10%Q 0 10%Q STATUS_AVAILABLE.

Definition settled_shop : DB :=
  mkDB [posy; wreath] [rose] [roses_in_bouquet] [].

(** The composition with primary key 1, edited to belong to the wreath. *)
Definition roses_moved_to_wreath : ProductComposition.t :=
  ProductComposition.mk 1 2 1 2.

(** The posy at 0.33 with half off. *)
Definition posy_half_off : Product.t :=
  Product.mk 1 1 "Posy"%string "posy"%string
             "products/previews/posy.png"%string
             (33 # 100) 50 0%Q STATUS_AVAILABLE.

(** A bouquet whose lilies were entered before its roses. *)
Definition lilies_entered_first : ProductComposition.t :=
  ProductComposition.mk 1 1 2 1.

Definition roses_entered_second : ProductComposition.t :=
  ProductComposition.mk 2 1 1 2.

Definition lily_then_rose_shop : DB :=
  mkDB [bouquet] [rose; lily] [lilies_entered_first; roses_entered_second] [].

(** The roses sell out. *)
Definition rose_sold_out : ProductComponent.t :=
  ProductComponent.mk 1 "Rose"%string "rose"%string 5%Q 0 0 10 true true.

(** ** Frames *)

(** [m] never writes to the store, whether it returns or raises. *)
Definition readonly {A} (m : M A) : Prop := forall db, fst (m db) = db.

(** [m] leaves the part [f] of the store as it found it. *)
Definition preserves {A X} (f : DB -> X) (m : M A) : Prop :=
  forall db, f (fst (m db)) = f db.

(** [m] never raises [e]. *)
Definition never_raises {A} (e : exn) (m : M A) : Prop :=
  forall db, snd (m db) <> inl e.

(** Every composition of product [pid] refers to a stored component. *)
Definition components_present (db : DB) (pid : Z) : Prop :=
  forall c, In c (compositions_of pid db) ->
            has_pk (ProductComposition.component c) (component_table db) = true.

(** *** The receivers as functions of the store

    The values the receivers compute when every lookup succeeds; the run
    lemmas below connect them with the monadic code. *)

Definition price_loop (db : DB) (pid : Z) : Q :=
  fold_left (fun acc c => (acc + line_cost db c)%Q) (compositions_of pid db) 0%Q.

Definition available_quantity (db : DB) (pid : Z) : Z :=
  match units db pid with
  | x :: xs => py_min x xs
  | [] => 0
  end.

Definition status_by_stock (db : DB) (pid : Z) : Z :=
  if available_quantity db pid >? 0 then STATUS_AVAILABLE else STATUS_ONLY_ORDER.

Definition first_component_status (db : DB) (pid : Z) : option bool :=
  match compositions_of pid db with
  | c :: _ => option_map ProductComponent.available (component_of db c)
  | [] => None
  end.

Definition presaved (db : DB) (p : Product.t) : Product.t :=
  let p1 :=
    match first_component_status db (Product.id p) with
    | Some false => Product.set_status STATUS_UNAVAILABLE p
    | _ => p
    end in
  Product.set_new_price (get_new_price p1) p1.

Definition recomputed (db : DB) (p : Product.t) : Product.t :=
  presaved db
    (Product.set_status (status_by_stock db (Product.id p))
       (Product.set_price (price_loop db (Product.id p)) p)).

Definition resynced (p : Product.t) (db : DB) : list OrderItem :=
  fold_left (fun rows i => db_save (OrderItem_resync p i) rows)
            (filter (fun i => OrderItem_product i =? Product.id p)
                    (orderitem_table db))
            (orderitem_table db).

(** The store after [Product.save()] has written row [p]. *)
Definition product_saved (p : Product.t) (db : DB) : DB :=
  let db1 := with_products (db_save p (product_table db)) db in
  with_orderitems (resynced p db1) db1.

(** One recomputation of product [pid], on the product table alone. *)
Definition recompute_row (db : DB) (pid : Z) (rows : list Product.t)
  : list Product.t :=
  match objects_get pid rows with
  | Some p => db_save (recomputed db p) rows
  | None => rows
  end.

(** "Available" when the minimum of the units is positive, "only to order"
    otherwise, also when there is nothing to take a minimum of. *)
Definition status_from_minimum (db : DB) (pid : Z) : Z :=
  match minimum (units db pid) with
  | Some m => if 0 <? m then STATUS_AVAILABLE else STATUS_ONLY_ORDER
  | None => STATUS_ONLY_ORDER
  end.

(** The status a recomputation leaves in the row: by stock, unless
    [get_productcomponent_status] is [False]. *)
Definition derived_status (db : DB) (pid : Z) : Z :=
  match first_component_status db pid with
  | Some false => STATUS_UNAVAILABLE
  | _ => status_from_minimum db pid
  end.

(** The three tables the cascade is about. *)
Definition catalog (db : DB)
  : list Product.t * list ProductComponent.t * list ProductComposition.t :=
  (product_table db, component_table db, composition_table db).

(** *** Facts about tables *)

Section TableFacts.
Context {T : Type} `{Model T}.

Lemma objects_get_Some (k : Z) (rows : list T) (r : T) :
objects_get k rows = Some r -> In r rows /\ pk r = k.
Proof.
unfold objects_get. intros Hf. apply find_some in Hf.
destruct Hf as [Hin Hk]. split; [exact Hin | now apply Z.eqb_eq].
Qed.

Lemma has_pk_true (k : Z) (rows : list T) :
has_pk k rows = true <-> exists r, objects_get k rows = Some r.
Proof.
unfold has_pk, objects_get. induction rows as [|x rows IH]; cbn.
- split; [discriminate | intros [r Hr]; discriminate].
- destruct (pk x =? k); cbn.
  + split; [intros _; now exists x | reflexivity].
  + exact IH.
Qed.

Lemma has_pk_false (k : Z) (rows : list T) :
has_pk k rows = false <-> objects_get k rows = None.
Proof.
unfold has_pk, objects_get. induction rows as [|x rows IH]; cbn.
- tauto.
- destruct (pk x =? k); cbn; [split; discriminate | exact IH].
Qed.

Lemma has_pk_In (r : T) (rows : list T) :
In r rows -> has_pk (pk r) rows = true.
Proof.
intros Hin. unfold has_pk. apply existsb_exists.
exists r. split; [exact Hin | apply Z.eqb_refl].
Qed.

Lemma has_pk_update_present (k : Z) (r : T) (rows : list T) :
has_pk (pk r) rows = true ->
has_pk k (db_update r rows) = has_pk k rows.
Proof.
unfold has_pk, db_update. induction rows as [|x rows IH]; cbn.
- reflexivity.
- destruct (Z.eqb_spec (pk x) (pk r)) as [E|E]; cbn.
  + intros _. rewrite E. destruct (pk r =? k) eqn:Ek; cbn; [reflexivity|].
    clear IH. induction rows as [|y rows IH]; cbn; [reflexivity|].
    destruct (Z.eqb_spec (pk y) (pk r)) as [E'|E'].
    * rewrite Ek, E', Ek. cbn. exact IH.
    * destruct (pk y =? k); cbn; [reflexivity | exact IH].
  + intros Hp. destruct (pk x =? k); cbn; [reflexivity | now apply IH].
Qed.

Lemma has_pk_app (k : Z) (l1 l2 : list T) :
has_pk k (l1 ++ l2) = has_pk k l1 || has_pk k l2.
Proof. unfold has_pk. apply existsb_app. Qed.

Lemma has_pk_save (k : Z) (r : T) (rows : list T) :
has_pk k rows = true -> has_pk k (db_save r rows) = true.
Proof.
intros Hk. unfold db_save. destruct (has_pk (pk r) rows) eqn:Hr.
- now rewrite has_pk_update_present.
- rewrite has_pk_app, Hk. reflexivity.
Qed.

Lemma objects_get_update_other (k : Z) (r : T) (rows : list T) :
k <> pk r -> objects_get k (db_update r rows) = objects_get k rows.
Proof.
intros Hk. unfold objects_get, db_update.
induction rows as [|x rows IH]; cbn; [reflexivity|].
destruct (Z.eqb_spec (pk x) (pk r)) as [E|E].
- rewrite E. destruct (Z.eqb_spec (pk r) k); [congruence | exact IH].
- destruct (pk x =? k); [reflexivity | exact IH].
Qed.

Lemma objects_get_update_same (r : T) (rows : list T) :
has_pk (pk r) rows = true ->
objects_get (pk r) (db_update r rows) = Some r.
Proof.
unfold has_pk, objects_get, db_update.
induction rows as [|x rows IH]; cbn; [discriminate|].
destruct (Z.eqb_spec (pk x) (pk r)) as [E|E]; cbn.
- intros _. now rewrite Z.eqb_refl.
- destruct (Z.eqb_spec (pk x) (pk r)); [contradiction | exact IH].
Qed.

Lemma objects_get_app (k : Z) (l1 l2 : list T) :
objects_get k (l1 ++ l2) =
match objects_get k l1 with Some r => Some r | None => objects_get k l2 end.
Proof.
unfold objects_get. induction l1 as [|x l1 IH]; cbn; [reflexivity|].
destruct (pk x =? k); [reflexivity | exact IH].
Qed.

Lemma objects_get_save_same (r : T) (rows : list T) :
objects_get (pk r) (db_save r rows) = Some r.
Proof.
unfold db_save. destruct (has_pk (pk r) rows) eqn:Hr.
- now apply objects_get_update_same.
- rewrite objects_get_app. apply has_pk_false in Hr. rewrite Hr.
  unfold objects_get. cbn. now rewrite Z.eqb_refl.
Qed.

Lemma objects_get_save_other (k : Z) (r : T) (rows : list T) :
k <> pk r -> objects_get k (db_save r rows) = objects_get k rows.
Proof.
intros Hk. unfold db_save. destruct (has_pk (pk r) rows).
- now apply objects_get_update_other.
- rewrite objects_get_app. destruct (objects_get k rows); [reflexivity|].
  unfold objects_get. cbn.
  destruct (Z.eqb_spec (pk r) k); [congruence | reflexivity].
Qed.

Lemma db_update_comm (r1 r2 : T) (rows : list T) :
pk r1 <> pk r2 ->
db_update r1 (db_update r2 rows) = db_update r2 (db_update r1 rows).
Proof.
intros Hne. unfold db_update. rewrite !map_map. apply map_ext. intros x.
assert (H12 : (pk r1 =? pk r2) = false) by now apply Z.eqb_neq.
assert (H21 : (pk r2 =? pk r1) = false)
  by (apply Z.eqb_neq; now apply not_eq_sym).
destruct (pk x =? pk r2) eqn:E2; destruct (pk x =? pk r1) eqn:E1;
  rewrite ?H12, ?H21, ?E1, ?E2, ?Z.eqb_refl; try reflexivity.
apply Z.eqb_eq in E1, E2. congruence.
Qed.

Lemma unique_pks_In_eq (rows : list T) (r x : T) :
unique_pks rows = true -> In r rows -> In x rows -> pk x = pk r -> x = r.
Proof.
induction rows as [|y rows IH]; cbn; [contradiction|].
intros Hu Hr Hx E. apply andb_prop in Hu. destruct Hu as [Hn Hu].
apply negb_true_iff in Hn.
destruct Hr as [<-|Hr], Hx as [<-|Hx]; try reflexivity.
- apply has_pk_In in Hx. congruence.
- apply has_pk_In in Hr. congruence.
- now apply IH.
Qed.

(** Saving an instance that was read from the table and left untouched
  rewrites the row with the values it already has. *)
Lemma db_save_stored (r : T) (rows : list T) :
unique_pks rows = true -> In r rows -> db_save r rows = rows.
Proof.
intros Hu Hin. unfold db_save. rewrite (has_pk_In _ _ Hin).
unfold db_update. rewrite <- (map_id rows) at 2. apply map_ext_in.
intros x Hx. destruct (Z.eqb_spec (pk x) (pk r)) as [E|E]; [|reflexivity].
symmetry. now apply (unique_pks_In_eq rows).
Qed.

Lemma forallb_db_save (P : T -> bool) (r : T) (rows : list T) :
P r = true -> forallb P rows = true -> forallb P (db_save r rows) = true.
Proof.
intros Hr Hrows. unfold db_save. destruct (has_pk (pk r) rows).
- unfold db_update. rewrite forallb_forall in *. intros y Hy.
  apply in_map_iff in Hy. destruct Hy as [x [<- Hx]].
  destruct (pk x =? pk r); [exact Hr | now apply Hrows].
- rewrite forallb_app, Hrows. cbn. now rewrite Hr.
Qed.

Lemma forallb_db_delete (P : T -> bool) (k : Z) (rows : list T) :
forallb P rows = true -> forallb P (db_delete k rows) = true.
Proof.
intros Hrows. unfold db_delete. rewrite forallb_forall in *.
intros x Hx. apply filter_In in Hx. now apply Hrows.
Qed.
Lemma db_update_absent (r : T) (rows : list T) :
  has_pk (pk r) rows = false -> db_update r rows = rows.
Proof.
  intros Hn. unfold db_update. rewrite <- (map_id rows) at 2.
  apply map_ext_in. intros x Hx.
  destruct (Z.eqb_spec (pk x) (pk r)) as [E|E]; [|reflexivity].
  apply has_pk_In in Hx. congruence.
Qed.

Lemma db_update_idem (r : T) (rows : list T) :
  db_update r (db_update r rows) = db_update r rows.
Proof.
  unfold db_update. rewrite map_map. apply map_ext. intros x.
  destruct (pk x =? pk r) eqn:E; rewrite ?Z.eqb_refl, ?E; reflexivity.
Qed.

(** Writing the same instance twice is writing it once. *)
Lemma db_save_idem (r : T) (rows : list T) :
  db_save r (db_save r rows) = db_save r rows.
Proof.
  unfold db_save. destruct (has_pk (pk r) rows) eqn:Hr.
  - rewrite has_pk_update_present, Hr by exact Hr. apply db_update_idem.
  - rewrite has_pk_app, Hr. unfold has_pk at 1. cbn. rewrite Z.eqb_refl. cbn.
    unfold db_update. rewrite map_app. cbn. rewrite Z.eqb_refl.
    f_equal. now apply db_update_absent.
Qed.

Lemma filter_db_delete_only (P : T -> bool) (r : T) (rows : list T) :
  filter P rows = [r] -> filter P (db_delete (pk r) rows) = [].
Proof.
  intros Honly. destruct (filter P (db_delete (pk r) rows)) as [|x xs] eqn:E;
    [reflexivity|].
  assert (Hx : In x (filter P (db_delete (pk r) rows))) by (rewrite E; now left).
  apply filter_In in Hx. destruct Hx as [Hx HP].
  unfold db_delete in Hx. apply filter_In in Hx. destruct Hx as [Hx Hne].
  assert (Hr : In x (filter P rows)) by (apply filter_In; now split).
  rewrite Honly in Hr. destruct Hr as [<-|[]].
  rewrite Z.eqb_refl in Hne. discriminate.
Qed.

End TableFacts.

(** ** Running the receivers *)

Lemma for_fold_pure {A S} (g : S -> A -> S) (body : S -> A -> M S)
      (db : DB) (xs : list A) :
  (forall acc x, In x xs -> body acc x db = (db, inr (g acc x))) ->
  forall acc, for_fold xs acc body db = (db, inr (fold_left g xs acc)).
Proof.
  induction xs as [|x xs IH]; intros Hbody acc; cbn.
  - reflexivity.
  - unfold bind. rewrite Hbody by now left.
    apply IH. intros a y Hy. apply Hbody. now right.
Qed.

Lemma fetch_present {T} `{Model T} (table : DB -> list T) (k : Z) (db : DB) :
  has_pk k (table db) = true ->
  exists r, objects_get k (table db) = Some r /\ fetch table k db = (db, inr r).
Proof.
  intros Hk. apply has_pk_true in Hk. destruct Hk as [r Hr].
  exists r. split; [exact Hr|]. unfold fetch. now rewrite Hr.
Qed.

Lemma get_composition_price_run (db : DB) (c : ProductComposition.t) :
  has_pk (ProductComposition.component c) (component_table db) = true ->
  get_composition_price c db = (db, inr (line_cost db c)).
Proof.
  intros Hk. destruct (fetch_present component_table _ db Hk) as [x [Hx Hf]].
  unfold get_composition_price, bind, line_cost, component_of.
  now rewrite Hf, Hx.
Qed.

Lemma get_price_run (db : DB) (p : Product.t) :
  components_present db (Product.id p) ->
  get_price p db = (db, inr (price_loop db (Product.id p))).
Proof.
  intros Hc. unfold get_price, bind, productcomposition_set, query, price_loop.
  fold (compositions_of (Product.id p) db).
  apply (for_fold_pure (fun acc c => (acc + line_cost db c)%Q)).
  intros acc c Hin. unfold bind.
  now rewrite get_composition_price_run by now apply Hc.
Qed.

Lemma units_loop (db : DB) (cs : list ProductComposition.t) (acc : list Z) :
  fold_left
    (fun acc c =>
       if ProductComposition.quantity c >? 0
       then acc ++ [stock_of db c / ProductComposition.quantity c]
       else acc) cs acc
  = acc ++ map (fun c => stock_of db c / ProductComposition.quantity c)
               (filter (fun c => 0 <? ProductComposition.quantity c) cs).
Proof.
  revert acc. induction cs as [|c cs IH]; intros acc; cbn.
  - now rewrite app_nil_r.
  - rewrite IH. rewrite Z.gtb_ltb.
    destruct (0 <? ProductComposition.quantity c); cbn; [|reflexivity].
    now rewrite <- app_assoc.
Qed.

Lemma get_available_quantity_of_products_run (db : DB) (p : Product.t) :
  components_present db (Product.id p) ->
  get_available_quantity_of_products p db
  = (db, inr (available_quantity db (Product.id p))).
Proof.
  intros Hc.
  unfold get_available_quantity_of_products, bind, productcomposition_set, query.
  fold (compositions_of (Product.id p) db).
  rewrite (for_fold_pure
             (fun acc c =>
                if ProductComposition.quantity c >? 0
                then acc ++ [stock_of db c / ProductComposition.quantity c]
                else acc)).
  - rewrite units_loop. cbn. unfold available_quantity, units.
    now destruct (map _ _).
  - intros acc c Hin.
    destruct (ProductComposition.quantity c >? 0) eqn:Hq; [|reflexivity].
    destruct (fetch_present component_table _ db (Hc c Hin)) as [x [Hx Hf]].
    unfold bind. rewrite Hf. unfold lift, py_floordiv.
    destruct (Z.eqb_spec (ProductComposition.quantity c) 0) as [E|E].
    + rewrite E in Hq. discriminate.
    + unfold ret, stock_of, component_of. now rewrite Hx.
Qed.

Lemma get_status_run (db : DB) (p : Product.t) :
  components_present db (Product.id p) ->
  get_status p db = (db, inr (status_by_stock db (Product.id p))).
Proof.
  intros Hc. unfold get_status, bind.
  rewrite get_available_quantity_of_products_run by exact Hc.
  unfold status_by_stock.
  now destruct (available_quantity db (Product.id p) >? 0).
Qed.

Lemma get_productcomponent_status_run (db : DB) (p : Product.t) :
  components_present db (Product.id p) ->
  get_productcomponent_status p db
  = (db, inr (first_component_status db (Product.id p))).
Proof.
  intros Hc.
  unfold get_productcomponent_status, bind, productcomposition_set, query.
  fold (compositions_of (Product.id p) db).
  unfold first_component_status. unfold components_present in Hc.
  destruct (compositions_of (Product.id p) db) as [|c cs]; [reflexivity|].
  destruct (fetch_present component_table _ db (Hc c (or_introl eq_refl)))
    as [x [Hx Hf]].
  rewrite Hf. unfold component_of. now rewrite Hx.
Qed.

Lemma recalculate_new_price_run (db : DB) (p : Product.t) :
  components_present db (Product.id p) ->
  recalculate_new_price p db = (db, inr (presaved db p)).
Proof.
  intros Hc. unfold recalculate_new_price, bind.
  now rewrite get_productcomponent_status_run by exact Hc.
Qed.

Lemma for_each_OrderItem_save (p : Product.t) (db : DB) (items : list OrderItem) :
  objects_get (Product.id p) (product_table db) = Some p ->
  (forall i, In i items -> OrderItem_product i = Product.id p) ->
  for_each items OrderItem_save db
  = (with_orderitems
       (fold_left (fun rows i => db_save (OrderItem_resync p i) rows)
                  items (orderitem_table db)) db,
     inr tt).
Proof.
  revert db. induction items as [|i items IH]; intros db Hp Hitems; cbn.
  - now destruct db.
  - unfold bind at 1. unfold OrderItem_save at 1. unfold bind, fetch.
    rewrite (Hitems i (or_introl eq_refl)), Hp. cbn.
    rewrite IH; [reflexivity | exact Hp |].
    intros j Hj. apply Hitems. now right.
Qed.

Lemma save_orderitem_run (p : Product.t) (db : DB) :
  objects_get (Product.id p) (product_table db) = Some p ->
  save_orderitem p db = (with_orderitems (resynced p db) db, inr tt).
Proof.
  intros Hp. unfold save_orderitem, bind, orderitem_set, query.
  rewrite (for_each_OrderItem_save p); [reflexivity | exact Hp |].
  intros i Hi. apply filter_In in Hi. now apply Z.eqb_eq.
Qed.

Lemma presaved_id (db : DB) (p : Product.t) :
  Product.id (presaved db p) = Product.id p.
Proof.
  unfold presaved.
  now destruct (first_component_status db (Product.id p)) as [[|]|].
Qed.

Lemma recomputed_id (db : DB) (p : Product.t) :
  Product.id (recomputed db p) = Product.id p.
Proof. unfold recomputed. now rewrite presaved_id. Qed.

Lemma Product_save_run (db : DB) (p : Product.t) :
  components_present db (Product.id p) ->
  Product_save p db = (product_saved (presaved db p) db, inr (presaved db p)).
Proof.
  intros Hc. unfold Product_save, bind.
  rewrite recalculate_new_price_run by exact Hc.
  unfold execute, save_orderitem_after_save.
  rewrite save_orderitem_run; [reflexivity|].
  cbn [product_table with_products].
  exact (objects_get_save_same (presaved db p) (product_table db)).
Qed.

Lemma save_product_after_save_run (db : DB) (c : ProductComposition.t)
      (p : Product.t) :
  objects_get (ProductComposition.product c) (product_table db) = Some p ->
  components_present db (ProductComposition.product c) ->
  save_product_after_save c db = (product_saved (recomputed db p) db, inr tt).
Proof.
  intros Hp Hc. destruct (objects_get_Some _ _ _ Hp) as [_ Hid].
  change (pk p) with (Product.id p) in Hid. rewrite <- Hid in Hc.
  unfold save_product_after_save, bind, fetch. rewrite Hp.
  rewrite get_price_run by exact Hc.
  rewrite get_status_run by exact Hc.
  rewrite Product_save_run by exact Hc.
  reflexivity.
Qed.

Lemma save_product_after_delete_run (db : DB) (c : ProductComposition.t)
      (p : Product.t) :
  objects_get (ProductComposition.product c) (product_table db) = Some p ->
  components_present db (ProductComposition.product c) ->
  save_product_after_delete c db = (product_saved (recomputed db p) db, inr tt).
Proof. exact (save_product_after_save_run db c p). Qed.

(** ** Integrity is kept by the writes *)

Lemma integrity_fk (db : DB) (c : ProductComposition.t) :
  integrity db = true -> In c (composition_table db) -> fk_resolves db c = true.
Proof.
  unfold integrity. intros Hi Hin. apply andb_prop in Hi. destruct Hi as [_ Hf].
  rewrite forallb_forall in Hf. now apply Hf.
Qed.

Lemma fks_components_present (db : DB) (pid : Z) :
  forallb (fk_resolves db) (composition_table db) = true ->
  components_present db pid.
Proof.
  intros Hf c Hc. apply filter_In in Hc. destruct Hc as [Hin _].
  rewrite forallb_forall in Hf. specialize (Hf c Hin).
  unfold fk_resolves in Hf. now apply andb_prop in Hf.
Qed.

Lemma integrity_components_present (db : DB) (pid : Z) :
  integrity db = true -> components_present db pid.
Proof.
  unfold integrity. intros Hi. apply andb_prop in Hi.
  now apply fks_components_present.
Qed.

Lemma fk_resolves_product (db : DB) (c : ProductComposition.t) :
  fk_resolves db c = true ->
  exists p, objects_get (ProductComposition.product c) (product_table db) = Some p.
Proof.
  unfold fk_resolves. intros Hf. apply andb_prop in Hf.
  now apply has_pk_true.
Qed.

Lemma fk_resolves_product_saved (p : Product.t) (db : DB)
      (c : ProductComposition.t) :
  fk_resolves db c = true -> fk_resolves (product_saved p db) c = true.
Proof.
  unfold fk_resolves. cbn [product_saved product_table component_table
                           with_products with_orderitems].
  intros Hf. apply andb_prop in Hf. destruct Hf as [Hp Hc].
  rewrite Hc, (has_pk_save _ p _ Hp). reflexivity.
Qed.

Lemma integrity_product_saved (p : Product.t) (db : DB) :
  integrity db = true -> integrity (product_saved p db) = true.
Proof.
  unfold integrity. intros Hi. apply andb_prop in Hi. destruct Hi as [Hu Hf].
  change (composition_table (product_saved p db)) with (composition_table db).
  rewrite Hu. cbn. rewrite forallb_forall in *. intros c Hc.
  apply fk_resolves_product_saved. now apply Hf.
Qed.

(** ** The price is the sum of the line costs *)

Lemma price_loop_from (f : ProductComposition.t -> Q)
      (cs : list ProductComposition.t) (acc : Q) :
  (fold_left (fun a c => a + f c) cs acc
   == acc + fold_right Qplus 0 (map f cs))%Q.
Proof.
  revert acc. induction cs as [|c cs IH]; intros acc; cbn.
  - ring.
  - rewrite IH. ring.
Qed.

Lemma price_loop_sum (db : DB) (pid : Z) :
  (price_loop db pid == sum_of_line_costs db pid)%Q.
Proof.
  unfold price_loop, sum_of_line_costs. rewrite price_loop_from. ring.
Qed.

Lemma presaved_price (db : DB) (p : Product.t) :
  Product.price (presaved db p) = Product.price p.
Proof.
  unfold presaved.
  now destruct (first_component_status db (Product.id p)) as [[|]|].
Qed.

Lemma presaved_discount (db : DB) (p : Product.t) :
  Product.discount (presaved db p) = Product.discount p.
Proof.
  unfold presaved.
  now destruct (first_component_status db (Product.id p)) as [[|]|].
Qed.

Lemma presaved_new_price (db : DB) (p : Product.t) :
  Product.new_price (presaved db p) = get_new_price p.
Proof.
  unfold presaved.
  now destruct (first_component_status db (Product.id p)) as [[|]|].
Qed.

Lemma recomputed_price (db : DB) (p : Product.t) :
  Product.price (recomputed db p) = price_loop db (Product.id p).
Proof. unfold recomputed. now rewrite presaved_price. Qed.

Lemma get_new_price_exact (p : Product.t) :
  (get_new_price p
   == Product.price p * inject_Z (100 - Product.discount p) / inject_Z 100)%Q.
Proof. unfold get_new_price. field. Qed.

(** ** Writing and deleting a composition *)

Lemma ProductComposition_save_run (db : DB) (c : ProductComposition.t)
      (p : Product.t) :
  forallb (fk_resolves db) (composition_table db) = true ->
  fk_resolves db c = true ->
  objects_get (ProductComposition.product c) (product_table db) = Some p ->
  let db1 := with_compositions (db_save c (composition_table db)) db in
  ProductComposition_save c db = (product_saved (recomputed db1 p) db1, inr tt).
Proof.
  intros Hf Hc Hp db1. unfold ProductComposition_save, bind, execute.
  fold db1. apply save_product_after_save_run; [exact Hp|].
  apply fks_components_present.
  exact (forallb_db_save (fk_resolves db) c _ Hc Hf).
Qed.

Lemma ProductComposition_delete_run (db : DB) (c : ProductComposition.t)
      (p : Product.t) :
  forallb (fk_resolves db) (composition_table db) = true ->
  objects_get (ProductComposition.product c) (product_table db) = Some p ->
  let db1 := with_compositions
               (db_delete (ProductComposition.id c) (composition_table db)) db in
  ProductComposition_delete c db = (product_saved (recomputed db1 p) db1, inr tt).
Proof.
  intros Hf Hp db1. unfold ProductComposition_delete, bind, execute.
  fold db1. apply save_product_after_delete_run; [exact Hp|].
  apply fks_components_present.
  exact (forallb_db_delete (fk_resolves db) _ _ Hf).
Qed.

(** ** The cascade over the compositions of a component *)

Lemma recomputed_ext (db db' : DB) (p : Product.t) :
  component_table db = component_table db' ->
  composition_table db = composition_table db' ->
  recomputed db p = recomputed db' p.
Proof.
  intros Hc Hk.
  unfold recomputed, presaved, first_component_status, status_by_stock,
    available_quantity, units, price_loop, line_cost, stock_of, component_of,
    compositions_of.
  now rewrite Hc, Hk.
Qed.

Lemma with_compositions_same (db : DB) :
  with_compositions (composition_table db) db = db.
Proof. now destruct db. Qed.

Lemma ProductComposition_save_stored (db : DB) (c : ProductComposition.t) :
  integrity db = true ->
  In c (composition_table db) ->
  exists p,
    objects_get (ProductComposition.product c) (product_table db) = Some p
    /\ ProductComposition_save c db = (product_saved (recomputed db p) db, inr tt).
Proof.
  intros Hi Hin. pose proof (integrity_fk db c Hi Hin) as Hfk.
  destruct (fk_resolves_product db c Hfk) as [p Hp]. exists p.
  split; [exact Hp|].
  unfold integrity in Hi. apply andb_prop in Hi. destruct Hi as [Hu Hf].
  rewrite (ProductComposition_save_run db c p Hf Hfk Hp).
  rewrite (db_save_stored c _ Hu Hin), with_compositions_same. reflexivity.
Qed.

Lemma cascade_run (db0 : DB) (l : list ProductComposition.t) :
  forall db,
    integrity db = true ->
    component_table db = component_table db0 ->
    composition_table db = composition_table db0 ->
    (forall c, In c l -> In c (composition_table db)) ->
    exists db',
      for_each l ProductComposition_save db = (db', inr tt)
      /\ product_table db'
         = fold_left (fun rows c =>
                        recompute_row db0 (ProductComposition.product c) rows)
                     l (product_table db)
      /\ component_table db' = component_table db0
      /\ composition_table db' = composition_table db0.
Proof.
  induction l as [|c l IH]; intros db Hi Hc Hk Hl.
  - exists db. cbn. auto.
  - destruct (ProductComposition_save_stored db c Hi (Hl c (or_introl eq_refl)))
      as [p [Hp Hrun]].
    set (db1 := product_saved (recomputed db p) db) in *.
    destruct (IH db1) as [db' [Hfor [Hprod [Hc' Hk']]]].
    + now apply integrity_product_saved.
    + exact Hc.
    + exact Hk.
    + intros x Hx. apply Hl. now right.
    + exists db'. cbn [for_each]. unfold bind. rewrite Hrun.
      split; [exact Hfor|]. split; [|split; assumption].
      rewrite Hprod. cbn [fold_left]. f_equal.
      unfold recompute_row. rewrite Hp.
      rewrite <- (recomputed_ext db db0 p Hc Hk). reflexivity.
Qed.

Lemma recompute_row_comm (db : DB) (k1 k2 : Z) (rows : list Product.t) :
  recompute_row db k1 (recompute_row db k2 rows)
  = recompute_row db k2 (recompute_row db k1 rows).
Proof.
  destruct (Z.eq_dec k1 k2) as [->|Hne]; [reflexivity|].
  unfold recompute_row.
  destruct (objects_get k1 rows) as [p1|] eqn:H1;
    destruct (objects_get k2 rows) as [p2|] eqn:H2;
    rewrite ?H1, ?H2; try reflexivity.
  - destruct (objects_get_Some _ _ _ H1) as [_ E1].
    destruct (objects_get_Some _ _ _ H2) as [_ E2].
    assert (Hr1 : pk (recomputed db p1) = k1)
      by (rewrite <- E1; apply recomputed_id).
    assert (Hr2 : pk (recomputed db p2) = k2)
      by (rewrite <- E2; apply recomputed_id).
    rewrite objects_get_save_other by congruence.
    rewrite (objects_get_save_other k2) by congruence.
    rewrite H1, H2.
    assert (P1 : has_pk k1 rows = true) by (apply has_pk_true; eauto).
    assert (P2 : has_pk k2 rows = true) by (apply has_pk_true; eauto).
    unfold db_save. rewrite Hr1, Hr2, P1, P2.
    rewrite !has_pk_update_present by congruence.
    rewrite P1, P2. apply db_update_comm. congruence.
  - destruct (objects_get_Some _ _ _ H1) as [_ E1].
    rewrite objects_get_save_other; [now rewrite H2|].
    change (pk (recomputed db p1)) with (Product.id (recomputed db p1)).
    rewrite recomputed_id. change (Product.id p1) with (pk p1). congruence.
  - destruct (objects_get_Some _ _ _ H2) as [_ E2].
    rewrite objects_get_save_other; [now rewrite H1|].
    change (pk (recomputed db p2)) with (Product.id (recomputed db p2)).
    rewrite recomputed_id. change (Product.id p2) with (pk p2). congruence.
Qed.

Lemma recompute_rows_perm (db : DB) (l l' : list ProductComposition.t) :
  Permutation l l' ->
  forall rows,
    fold_left (fun rows c => recompute_row db (ProductComposition.product c) rows)
              l rows
    = fold_left (fun rows c => recompute_row db (ProductComposition.product c) rows)
                l' rows.
Proof.
  induction 1 as [|x l l' _ IH|x y l|l l' l'' _ IH1 _ IH2]; intros rows; cbn.
  - reflexivity.
  - apply IH.
  - now rewrite recompute_row_comm.
  - now rewrite IH1.
Qed.

(** ** What a recomputed row holds *)

Lemma py_min_spec (x : Z) (xs : list Z) : py_min x xs = fold_right Z.min x xs.
Proof.
  unfold py_min.
  rewrite <- (fold_symmetric Z.min Z.min_assoc x (Z.min_comm x)).
  revert x. induction xs as [|y ys IH]; intros x; cbn; [reflexivity|].
  rewrite IH. f_equal.
  destruct (Z.ltb_spec y x); [now rewrite Z.min_r by lia | now rewrite Z.min_l].
Qed.

Lemma status_by_stock_minimum (db : DB) (pid : Z) :
  status_by_stock db pid = status_from_minimum db pid.
Proof.
  unfold status_by_stock, status_from_minimum, available_quantity, minimum.
  destruct (units db pid) as [|x xs]; [reflexivity|].
  now rewrite py_min_spec, Z.gtb_ltb.
Qed.

Lemma recomputed_status (db : DB) (p : Product.t) :
  Product.status (recomputed db p) = derived_status db (Product.id p).
Proof.
  unfold recomputed, presaved, derived_status. cbn [Product.id Product.set_status
    Product.set_price].
  rewrite <- status_by_stock_minimum.
  now destruct (first_component_status db (Product.id p)) as [[|]|].
Qed.

Lemma recomputed_discount (db : DB) (p : Product.t) :
  Product.discount (recomputed db p) = Product.discount p.
Proof. unfold recomputed. now rewrite presaved_discount. Qed.

Lemma recomputed_new_price (db : DB) (p : Product.t) :
  (Product.new_price (recomputed db p)
   == Product.price (recomputed db p)
      * inject_Z (100 - Product.discount (recomputed db p)) / inject_Z 100)%Q.
Proof.
  unfold recomputed. rewrite presaved_new_price, presaved_price, presaved_discount.
  apply get_new_price_exact.
Qed.

Lemma recomputed_idem (db : DB) (p : Product.t) :
  recomputed db (recomputed db p) = recomputed db p.
Proof.
  destruct p as [i c t s pv pr d np st].
  unfold recomputed, presaved.
  cbn [Product.id Product.set_status Product.set_price].
  destruct (first_component_status db i) as [[|]|] eqn:E;
    cbn [Product.id Product.set_status Product.set_price Product.set_new_price];
    rewrite ?E; reflexivity.
Qed.

Lemma presaved_idem (db : DB) (p : Product.t) :
  presaved db (presaved db p) = presaved db p.
Proof.
  unfold presaved at 1. rewrite presaved_id.
  unfold presaved, get_new_price.
  destruct (first_component_status db (Product.id p)) as [[|]|]; reflexivity.
Qed.

(** A row is up to date when it is the outcome of a recomputation. *)
Lemma recompute_row_establishes (db : DB) (k : Z) (rows : list Product.t) :
  has_pk k rows = true ->
  exists p, objects_get k (recompute_row db k rows) = Some (recomputed db p).
Proof.
  intros Hk. apply has_pk_true in Hk. destruct Hk as [p Hp].
  exists p. unfold recompute_row. rewrite Hp.
  destruct (objects_get_Some _ _ _ Hp) as [_ <-].
  change (pk p) with (Product.id p). rewrite <- (recomputed_id db p).
  exact (objects_get_save_same (recomputed db p) rows).
Qed.

Lemma recompute_row_keeps (db : DB) (k k' : Z) (rows : list Product.t) :
  (exists p, objects_get k rows = Some (recomputed db p)) ->
  exists p, objects_get k (recompute_row db k' rows) = Some (recomputed db p).
Proof.
  intros [p Hp]. destruct (Z.eq_dec k' k) as [->|Hne].
  - apply recompute_row_establishes. apply has_pk_true. eauto.
  - exists p. unfold recompute_row.
    destruct (objects_get k' rows) as [q|] eqn:Hq; [|exact Hp].
    rewrite objects_get_save_other; [exact Hp|].
    destruct (objects_get_Some _ _ _ Hq) as [_ E].
    change (pk (recomputed db q)) with (Product.id (recomputed db q)).
    rewrite recomputed_id. change (Product.id q) with (pk q). congruence.
Qed.

Lemma has_pk_recompute_row (db : DB) (k k' : Z) (rows : list Product.t) :
  has_pk k rows = true -> has_pk k (recompute_row db k' rows) = true.
Proof.
  intros Hk. unfold recompute_row.
  destruct (objects_get k' rows); [now apply has_pk_save | exact Hk].
Qed.

Lemma recompute_rows_keep (db : DB) (k : Z) (l : list ProductComposition.t) :
  forall rows,
    (exists p, objects_get k rows = Some (recomputed db p)) ->
    exists p,
      objects_get k
        (fold_left (fun rows c =>
                      recompute_row db (ProductComposition.product c) rows)
                   l rows)
      = Some (recomputed db p).
Proof.
  induction l as [|c l IH]; intros rows Hrow; cbn; [exact Hrow|].
  apply IH. now apply recompute_row_keeps.
Qed.

Lemma recompute_rows_establish (db : DB) (k : ProductComposition.t)
      (l : list ProductComposition.t) :
  forall rows,
    In k l ->
    (forall c, In c l -> has_pk (ProductComposition.product c) rows = true) ->
    exists p,
      objects_get (ProductComposition.product k)
        (fold_left (fun rows c =>
                      recompute_row db (ProductComposition.product c) rows)
                   l rows)
      = Some (recomputed db p).
Proof.
  induction l as [|c l IH]; intros rows Hin Hpk; [contradiction|].
  cbn [fold_left]. destruct Hin as [->|Hin].
  - apply recompute_rows_keep. apply recompute_row_establishes.
    apply Hpk. now left.
  - apply IH; [exact Hin|].
    intros x Hx. apply has_pk_recompute_row. apply Hpk. now right.
Qed.

(** ** Frame rules *)

Create HintDb frame.

Lemma readonly_ret {A} (a : A) : readonly (ret a).
Proof. intros db. reflexivity. Qed.

Lemma readonly_raise {A} (e : exn) : readonly (@raise A e).
Proof. intros db. reflexivity. Qed.

Lemma readonly_lift {A} (r : exn + A) : readonly (lift r).
Proof. intros db. reflexivity. Qed.

Lemma readonly_query {A} (q : DB -> A) : readonly (query q).
Proof. intros db. reflexivity. Qed.

Lemma readonly_fetch {T} `{Model T} (table : DB -> list T) (k : Z) :
  readonly (fetch table k).
Proof. intros db. unfold fetch. now destruct (objects_get k (table db)). Qed.

Lemma readonly_bind {A B} (m : M A) (k : A -> M B) :
  readonly m -> (forall a, readonly (k a)) -> readonly (bind m k).
Proof.
  intros Hm Hk db. unfold bind. specialize (Hm db).
  destruct (m db) as [db' [e|a]]; cbn in *; [exact Hm|].
  rewrite (Hk a db'). exact Hm.
Qed.

Lemma readonly_for_fold {A S} (body : S -> A -> M S) (xs : list A) :
  (forall acc x, readonly (body acc x)) ->
  forall acc, readonly (for_fold xs acc body).
Proof.
  intros Hbody. induction xs as [|x xs IH]; intros acc; cbn.
  - apply readonly_ret.
  - apply readonly_bind; [apply Hbody | exact IH].
Qed.

Lemma readonly_preserves {A X} (f : DB -> X) (m : M A) :
  readonly m -> preserves f m.
Proof. intros Hm db. now rewrite Hm. Qed.

Lemma preserves_bind {A B X} (f : DB -> X) (m : M A) (k : A -> M B) :
  preserves f m -> (forall a, preserves f (k a)) -> preserves f (bind m k).
Proof.
  intros Hm Hk db. unfold bind. specialize (Hm db).
  destruct (m db) as [db' [e|a]]; cbn in *; [exact Hm|].
  rewrite (Hk a db'). exact Hm.
Qed.

Lemma preserves_for_each {A X} (f : DB -> X) (body : A -> M unit) (xs : list A) :
  (forall x, preserves f (body x)) -> preserves f (for_each xs body).
Proof.
  intros Hbody. induction xs as [|x xs IH]; cbn.
  - intros db. reflexivity.
  - apply preserves_bind; [apply Hbody | intros _; exact IH].
Qed.

#[local] Hint Resolve readonly_ret readonly_raise readonly_lift readonly_query
  readonly_bind readonly_for_fold : frame.
#[local] Hint Extern 1 (readonly (fetch _ _)) => apply readonly_fetch : frame.

Lemma readonly_get_composition_price (c : ProductComposition.t) :
  readonly (get_composition_price c).
Proof. unfold get_composition_price. auto with frame. Qed.

Lemma readonly_get_price (p : Product.t) : readonly (get_price p).
Proof.
  unfold get_price, productcomposition_set.
  apply readonly_bind; [auto with frame|]. intros cs.
  apply readonly_for_fold. intros acc c.
  apply readonly_bind; [apply readonly_get_composition_price | auto with frame].
Qed.

Lemma readonly_get_available_quantity_of_products (p : Product.t) :
  readonly (get_available_quantity_of_products p).
Proof.
  unfold get_available_quantity_of_products, productcomposition_set.
  apply readonly_bind; [auto with frame|]. intros cs.
  apply readonly_bind.
  - apply readonly_for_fold. intros acc c.
    destruct (ProductComposition.quantity c >? 0); auto 6 with frame.
  - intros [|x xs]; auto with frame.
Qed.

Lemma readonly_get_status (p : Product.t) : readonly (get_status p).
Proof.
  unfold get_status.
  apply readonly_bind; [apply readonly_get_available_quantity_of_products|].
  intros n. destruct (n >? 0); auto with frame.
Qed.

Lemma readonly_get_productcomponent_status (p : Product.t) :
  readonly (get_productcomponent_status p).
Proof.
  unfold get_productcomponent_status, productcomposition_set.
  apply readonly_bind; [auto with frame|].
  intros [|c cs]; auto with frame.
Qed.

Lemma readonly_recalculate_new_price (p : Product.t) :
  readonly (recalculate_new_price p).
Proof.
  unfold recalculate_new_price.
  apply readonly_bind; [apply readonly_get_productcomponent_status|].
  auto with frame.
Qed.

(** The cascade below a component never writes to the component table. *)
Lemma preserves_OrderItem_save {X} (f : DB -> X) (i : OrderItem) :
  (forall rows db, f (with_orderitems rows db) = f db) ->
  preserves f (OrderItem_save i).
Proof.
  intros Hf. unfold OrderItem_save.
  apply preserves_bind; [apply readonly_preserves, readonly_fetch|].
  intros p db. cbn. apply Hf.
Qed.

Lemma preserves_Product_save {X} (f : DB -> X) (p : Product.t) :
  (forall rows db, f (with_orderitems rows db) = f db) ->
  (forall rows db, f (with_products rows db) = f db) ->
  preserves f (Product_save p).
Proof.
  intros Hi Hp. unfold Product_save.
  apply preserves_bind;
    [apply readonly_preserves, readonly_recalculate_new_price|].
  intros p'. apply preserves_bind; [intros db; cbn; apply Hp|].
  intros _. apply preserves_bind.
  - unfold save_orderitem_after_save, save_orderitem, orderitem_set.
    apply preserves_bind; [apply readonly_preserves, readonly_query|].
    intros items. apply preserves_for_each. intros i.
    now apply preserves_OrderItem_save.
  - intros _. apply readonly_preserves, readonly_ret.
Qed.

Lemma preserves_save_product_after_save {X} (f : DB -> X)
      (c : ProductComposition.t) :
  (forall rows db, f (with_orderitems rows db) = f db) ->
  (forall rows db, f (with_products rows db) = f db) ->
  preserves f (save_product_after_save c).
Proof.
  intros Hi Hp. unfold save_product_after_save.
  apply preserves_bind; [apply readonly_preserves, readonly_fetch|].
  intros p. apply preserves_bind; [apply readonly_preserves, readonly_get_price|].
  intros price. apply preserves_bind;
    [apply readonly_preserves, readonly_get_status|].
  intros st. apply preserves_bind; [now apply preserves_Product_save|].
  intros _. apply readonly_preserves, readonly_ret.
Qed.

Lemma preserves_save_related_productcompositions (c : ProductComponent.t) :
  preserves component_table (save_related_productcompositions c).
Proof.
  unfold save_related_productcompositions, productcomposition_set_of_component.
  apply preserves_bind; [apply readonly_preserves, readonly_query|].
  intros cs. apply preserves_for_each. intros k.
  unfold ProductComposition_save.
  apply preserves_bind; [intros db; reflexivity|].
  intros _. apply preserves_save_product_after_save; reflexivity.
Qed.

(** ** No division by zero *)

Lemma never_raises_bind {A B} (e : exn) (m : M A) (k : A -> M B) :
  never_raises e m -> (forall a, never_raises e (k a)) ->
  never_raises e (bind m k).
Proof.
  intros Hm Hk db. unfold bind. specialize (Hm db).
  destruct (m db) as [db' [e'|a]]; cbn in *; [congruence | apply Hk].
Qed.

Lemma never_raises_for_fold {A S} (e : exn) (body : S -> A -> M S)
      (xs : list A) :
  (forall acc x, never_raises e (body acc x)) ->
  forall acc, never_raises e (for_fold xs acc body).
Proof.
  intros Hbody. induction xs as [|x xs IH]; intros acc; cbn.
  - intros db. discriminate.
  - apply never_raises_bind; [apply Hbody | exact IH].
Qed.

Lemma fetch_never_divides {T} `{Model T} (table : DB -> list T) (k : Z) :
  never_raises ZeroDivisionError (fetch table k).
Proof.
  intros db. unfold fetch. destruct (objects_get k (table db)); discriminate.
Qed.

Lemma get_available_quantity_of_products_never_divides_by_zero (p : Product.t) :
  never_raises ZeroDivisionError (get_available_quantity_of_products p).
Proof.
  unfold get_available_quantity_of_products.
  apply never_raises_bind; [intros db; discriminate|]. intros cs.
  apply never_raises_bind.
  - apply never_raises_for_fold. intros acc c.
    destruct (ProductComposition.quantity c >? 0) eqn:Hq;
      [|intros db; discriminate].
    apply never_raises_bind; [apply fetch_never_divides|]. intros x.
    apply never_raises_bind; [|intros q db; discriminate].
    intros db. unfold lift, py_floordiv.
    destruct (Z.eqb_spec (ProductComposition.quantity c) 0) as [E|E];
      [|discriminate].
    rewrite E in Hq. discriminate.
  - intros [|x xs] db; discriminate.
Qed.

Lemma units_all_zero (db : DB) (pid : Z) :
  forallb (fun c => ProductComposition.quantity c =? 0) (compositions_of pid db)
  = true ->
  units db pid = [].
Proof.
  intros Hz. unfold units.
  replace (filter _ (compositions_of pid db)) with (@nil ProductComposition.t);
    [reflexivity|].
  symmetry. rewrite forallb_forall in Hz.
  induction (compositions_of pid db) as [|c cs IH]; [reflexivity|]. cbn.
  assert (Hc : ProductComposition.quantity c = 0)
    by (apply Z.eqb_eq, Hz; now left).
  rewrite Hc. cbn. apply IH. intros x Hx. apply Hz. now right.
Qed.

(** Compositions with quantity 0 are skipped before the component is even
    looked up, so no integrity is needed here. *)
Lemma get_available_quantity_of_products_all_zero (p : Product.t) (db : DB) :
  forallb (fun c => ProductComposition.quantity c =? 0)
          (compositions_of (Product.id p) db) = true ->
  get_available_quantity_of_products p db = (db, inr 0).
Proof.
  intros Hz.
  unfold get_available_quantity_of_products, bind, productcomposition_set, query.
  fold (compositions_of (Product.id p) db).
  rewrite (for_fold_pure (fun (acc : list Z) (_ : ProductComposition.t) => acc)).
  - assert (Hskip : forall (cs : list ProductComposition.t) (acc : list Z),
               fold_left (fun acc _ => acc) cs acc = acc)
      by (induction cs; cbn; auto).
    now rewrite Hskip.
  - intros acc c Hin. rewrite forallb_forall in Hz.
    rewrite (proj1 (Z.eqb_eq _ _) (Hz c Hin)). reflexivity.
Qed.

(** ** Writing a component *)

Lemma sum_of_line_costs_ext (db db' : DB) (pid : Z) :
  component_table db = component_table db' ->
  composition_table db = composition_table db' ->
  sum_of_line_costs db pid = sum_of_line_costs db' pid.
Proof.
  intros Hc Hk.
  unfold sum_of_line_costs, line_cost, component_of, compositions_of.
  now rewrite Hc, Hk.
Qed.

Lemma derived_status_ext (db db' : DB) (pid : Z) :
  component_table db = component_table db' ->
  composition_table db = composition_table db' ->
  derived_status db pid = derived_status db' pid.
Proof.
  intros Hc Hk.
  unfold derived_status, status_from_minimum, first_component_status, units,
    stock_of, component_of, compositions_of.
  now rewrite Hc, Hk.
Qed.

Lemma integrity_with_components (x : ProductComponent.t) (db : DB) :
  integrity db = true ->
  integrity (with_components (db_save x (component_table db)) db) = true.
Proof.
  unfold integrity. intros Hi. apply andb_prop in Hi. destruct Hi as [Hu Hf].
  cbn [composition_table with_components]. rewrite Hu. cbn.
  rewrite forallb_forall in *. intros c Hc. specialize (Hf c Hc).
  unfold fk_resolves in *. cbn [product_table component_table with_components].
  apply andb_prop in Hf. destruct Hf as [Hp Hx].
  now rewrite Hp, (has_pk_save _ x _ Hx).
Qed.

Lemma ProductComponent_save_run (c : ProductComponent.t) (db : DB) :
  integrity db = true ->
  let written :=
    with_components (db_save (add_new_arrival c) (component_table db)) db in
  exists db',
    ProductComponent_save c db = (db', inr (add_new_arrival c))
    /\ component_table db' = component_table written
    /\ composition_table db' = composition_table db
    /\ (forall k,
           In k (composition_table db) ->
           ProductComposition.component k = ProductComponent.id c ->
           exists p,
             Product.id p = ProductComposition.product k
             /\ objects_get (ProductComposition.product k) (product_table db')
                = Some (recomputed written p))
    /\ (forall l,
           Permutation l (compositions_using (ProductComponent.id c) written) ->
           exists db'',
             for_each l ProductComposition_save written = (db'', inr tt)
             /\ catalog db'' = catalog db').
Proof.
  intros Hi written.
  pose proof (integrity_with_components (add_new_arrival c) db Hi) as Hi1.
  fold written in Hi1.
  set (l0 := compositions_using (ProductComponent.id c) written).
  assert (Hl0 : forall k, In k l0 -> In k (composition_table written))
    by (intros k Hk; now apply filter_In in Hk).
  destruct (cascade_run written l0 written Hi1 eq_refl eq_refl Hl0)
    as [db' [Hrun [Hprod [Hcomp Hcompo]]]].
  exists db'. split.
  { unfold ProductComponent_save, recalculate_quantity_in_stock_before_save,
      save_productcomposition, save_related_productcompositions,
      productcomposition_set_of_component, bind, ret, execute, query.
    fold written. change (ProductComponent.id (add_new_arrival c))
      with (ProductComponent.id c).
    fold (compositions_using (ProductComponent.id c) written). fold l0.
    now rewrite Hrun. }
  split; [exact Hcomp|]. split; [exact Hcompo|]. split.
  - intros k Hin Hk.
    assert (Hk0 : In k l0)
      by (apply filter_In; split; [exact Hin | now apply Z.eqb_eq]).
    destruct (recompute_rows_establish written k l0 (product_table written) Hk0)
      as [p Hp].
    { intros x Hx. pose proof (integrity_fk written x Hi1 (Hl0 x Hx)) as Hfk.
      unfold fk_resolves in Hfk. now apply andb_prop in Hfk. }
    exists p. rewrite Hprod. split; [|exact Hp].
    destruct (objects_get_Some _ _ _ Hp) as [_ Hid].
    rewrite <- Hid. symmetry. apply recomputed_id.
  - intros l Hperm.
    assert (Hl : forall k, In k l -> In k (composition_table written))
      by (intros k Hk; apply Hl0; now apply (Permutation_in _ Hperm)).
    destruct (cascade_run written l written Hi1 eq_refl eq_refl Hl)
      as [db'' [Hrun' [Hprod' [Hcomp' Hcompo']]]].
    exists db''. split; [exact Hrun'|].
    unfold catalog. rewrite Hprod', Hcomp', Hcompo', Hprod, Hcomp, Hcompo.
    now rewrite (recompute_rows_perm written l l0 Hperm).
Qed.

(** When every composition of the product has a positive quantity, the
    minimum ranges over all of them. *)
Lemma units_all_positive (db : DB) (pid : Z) :
  forallb (fun c => 0 <? ProductComposition.quantity c) (compositions_of pid db)
  = true ->
  units db pid
  = map (fun c => stock_of db c / ProductComposition.quantity c)
        (compositions_of pid db).
Proof.
  intros Hpos. unfold units. f_equal.
  induction (compositions_of pid db) as [|c cs IH]; [reflexivity|].
  cbn in Hpos |- *. apply andb_prop in Hpos. destruct Hpos as [Hc Hcs].
  rewrite Hc. f_equal. now apply IH.
Qed.

Lemma all_available_first (db : DB) (pid : Z) :
  all_components_available db pid = true ->
  first_component_status db pid <> Some false.
Proof.
  unfold all_components_available, first_component_status.
  destruct (compositions_of pid db) as [|c cs]; [discriminate|].
  cbn. intros Ha. apply andb_prop in Ha. destruct Ha as [Ha _].
  unfold component_available in Ha.
  destruct (component_of db c) as [x|]; cbn; [|discriminate]. congruence.
Qed.

Lemma derived_status_all_available (db : DB) (pid : Z) :
  all_components_available db pid = true ->
  derived_status db pid = status_from_minimum db pid.
Proof.
  intros Ha. apply all_available_first in Ha. unfold derived_status.
  destruct (first_component_status db pid) as [[|]|]; congruence.
Qed.

(** ** Rounding to the column *)

Lemma round_half_even_exact (v : Q) (m : Z) :
  (v == m # 100)%Q -> round_half_even v 2 = m.
Proof.
  unfold Qeq. cbn [Qnum Qden]. intros E.
  unfold round_half_even. change (10 ^ 2) with 100. rewrite E.
  rewrite Z.div_mul by discriminate. rewrite Z.mod_mul by discriminate.
  reflexivity.
Qed.

Lemma round_half_even_nearest (v : Q) :
  ((round_half_even v 2 # 100) - (1 # 200) <= v)%Q
  /\ (v <= (round_half_even v 2 # 100) + (1 # 200))%Q.
Proof.
  destruct v as [n d].
  unfold round_half_even. cbn [Qnum Qden]. change (10 ^ 2) with 100.
  pose proof (Z.div_mod (n * 100) (Zpos d) ltac:(discriminate)) as Hdm.
  pose proof (Z.mod_pos_bound (n * 100) (Zpos d) ltac:(reflexivity)) as Hr.
  set (f := n * 100 / Zpos d) in *. set (r := (n * 100) mod Zpos d) in *.
  assert (Hgoal : forall m,
             Z.abs (2 * (m * Zpos d - n * 100)) <= Zpos d ->
             ((m # 100) - (1 # 200) <= n # d)%Q
             /\ (n # d <= (m # 100) + (1 # 200))%Q).
  { intros m Hm. unfold Qle, Qminus, Qplus, Qopp. cbn [Qnum Qden].
    rewrite !Pos2Z.inj_mul. split; nia. }
  apply Hgoal.
  destruct (Z.compare_spec (2 * r) (Zpos d)); [destruct (Z.even f)| |]; nia.
Qed.

Lemma DecimalField_column_two_places (v w : Q) :
  DecimalField_column 10 2 v = Some w ->
  w = round_half_even v 2 # 100.
Proof.
  unfold DecimalField_column. destruct (_ <? _); [|discriminate].
  intros E. injection E as <-. reflexivity.
Qed.

(** * The claims *)

(** C5. A component write folds the new arrival into the stock: the pre-save
    receiver returns, and the component table then holds (also when the
    cascade behind the write raises), a row whose [new_arrival] is 0 and
    whose [quantity_in_stock] is the sum of the two values the instance had
    before the write. *)
Theorem C5_component_write_folds_new_arrival
        (c : ProductComponent.t) (db : DB) :
  exists c',
    recalculate_quantity_in_stock_before_save c db = (db, inr c')
    /\ objects_get (ProductComponent.id c)
         (component_table (fst (ProductComponent_save c db))) = Some c'
    /\ ProductComponent.new_arrival c' = 0
    /\ ProductComponent.quantity_in_stock c'
       = ProductComponent.quantity_in_stock c + ProductComponent.new_arrival c.
Proof.
  exists (add_new_arrival c). repeat split.
  unfold ProductComponent_save, recalculate_quantity_in_stock_before_save,
    save_productcomposition, bind, ret, execute.
  set (db1 := with_components _ db).
  pose proof (preserves_save_related_productcompositions (add_new_arrival c) db1)
    as Hframe.
  destruct (save_related_productcompositions (add_new_arrival c) db1)
    as [db' [e|u]]; cbn [fst] in *; rewrite Hframe; subst db1;
    exact (objects_get_save_same (add_new_arrival c) (component_table db)).
Qed.

Lemma recalculate_new_price_cases (p : Product.t) (db : DB) :
  (exists e, recalculate_new_price p db = (db, inl e))
  \/ (exists st,
        recalculate_new_price p db
        = (db, inr (Product.mk (Product.id p) (Product.category p)
                      (Product.title p) (Product.slug p) (Product.preview p)
                      (Product.price p) (Product.discount p)
                      (get_new_price p) st))).
Proof.
  unfold recalculate_new_price, bind.
  pose proof (readonly_get_productcomponent_status p db) as Hro.
  destruct (get_productcomponent_status p db) as [db' [e|s]]; cbn in Hro;
    subst db'.
  - left. now exists e.
  - right. destruct s as [[|]|]; eexists; reflexivity.
Qed.

(** C10. The pre-save receiver of a product writes nothing to the store, so
    every component and composition row (and every product row) is as
    before, and the instance it hands to the row write differs from the one
    it was given in [status] and [new_price] at most: [price], [discount],
    [title], [category] and the other fields are the same. *)
Theorem C10_product_presave_changes_status_and_new_price_only
        (p : Product.t) (db : DB) :
  fst (recalculate_new_price p db) = db
  /\ match snd (recalculate_new_price p db) with
     | inr p' =>
         Product.price p' = Product.price p
         /\ Product.discount p' = Product.discount p
         /\ Product.title p' = Product.title p
         /\ Product.category p' = Product.category p
         /\ Product.id p' = Product.id p
         /\ Product.slug p' = Product.slug p
         /\ Product.preview p' = Product.preview p
     | inl _ => True
     end.
Proof.
  split; [apply readonly_recalculate_new_price|].
  destruct (recalculate_new_price_cases p db) as [[e ->]|[st ->]]; cbn; auto 10.
Qed.

(** C3, as amended.  The [new_price] the pre-save receiver assigns to the
    instance of a product write is [price * (100 - discount) / 100], in
    exact arithmetic and with the price and discount the instance had.  The
    [new_price] column keeps that value rounded to its two decimal places,
    within half a hundredth of it, and equal to it whenever the exact value
    has no more than two decimal places; with price 100 and discount 20 the
    column holds 80. *)
Theorem C3_new_price_exact_on_the_instance_rounded_in_the_column
        (p : Product.t) (db : DB) :
  integrity db = true ->
  exists db' p',
    Product_save p db = (db', inr p')
    /\ objects_get (Product.id p) (product_table db') = Some p'
    /\ Product.price p' = Product.price p
    /\ Product.discount p' = Product.discount p
    /\ (Product.new_price p'
        == Product.price p' * inject_Z (100 - Product.discount p') / 100)%Q
    /\ (forall v,
           Product_new_price_column p' = Some v ->
           v = round_half_even (Product.new_price p') 2 # 100
           /\ (v - (1 # 200) <= Product.new_price p')%Q
           /\ (Product.new_price p' <= v + (1 # 200))%Q
           /\ (forall cents,
                  (Product.new_price p' == cents # 100)%Q ->
                  (v == Product.new_price p')%Q))
    /\ ((Product.price p == 100)%Q -> Product.discount p = 20 ->
        exists v, Product_new_price_column p' = Some v /\ (v == 80)%Q).
Proof.
  intros Hi.
  exists (product_saved (presaved db p) db), (presaved db p).
  split; [apply Product_save_run; now apply integrity_components_present|].
  split.
  { rewrite <- (presaved_id db p).
    exact (objects_get_save_same (presaved db p) (product_table db)). }
  unfold Product_new_price_column.
  rewrite presaved_price, presaved_discount, presaved_new_price.
  split; [reflexivity|]. split; [reflexivity|].
  split; [apply get_new_price_exact|]. split.
  - intros v Hv. apply DecimalField_column_two_places in Hv. subst v.
    split; [reflexivity|].
    destruct (round_half_even_nearest (get_new_price p)) as [Hlo Hhi].
    split; [exact Hlo|]. split; [exact Hhi|].
    intros cents Hcents. rewrite (round_half_even_exact _ _ Hcents).
    symmetry. exact Hcents.
  - intros Hprice Hdisc.
    assert (H80 : (get_new_price p == 8000 # 100)%Q).
    { unfold get_new_price. rewrite Hprice, Hdisc. reflexivity. }
    exists (8000 # 100). split; [|reflexivity].
    unfold DecimalField_column.
    rewrite (round_half_even_exact _ _ H80). reflexivity.
Qed.

(** C9. The availability computation never divides by zero, whatever the
    store holds; on a store with integrity it returns a number; and a
    product whose compositions all have quantity 0, or that has none, gets
    0 available units and the status "only to order" instead of an error. *)
Theorem C9_availability_is_total (p : Product.t) (db : DB) :
  snd (get_available_quantity_of_products p db) <> inl ZeroDivisionError
  /\ snd (get_status p db) <> inl ZeroDivisionError
  /\ (integrity db = true ->
      exists n s,
        get_available_quantity_of_products p db = (db, inr n)
        /\ get_status p db = (db, inr s))
  /\ (forallb (fun c => ProductComposition.quantity c =? 0)
              (compositions_of (Product.id p) db) = true ->
      get_available_quantity_of_products p db = (db, inr 0)
      /\ get_status p db = (db, inr STATUS_ONLY_ORDER)).
Proof.
  split; [apply get_available_quantity_of_products_never_divides_by_zero|].
  split.
  { unfold get_status.
    apply never_raises_bind;
      [apply get_available_quantity_of_products_never_divides_by_zero|].
    intros n db'. destruct (n >? 0); discriminate. }
  split.
  - intros Hi. pose proof (integrity_components_present db (Product.id p) Hi).
    eexists; eexists. split.
    + now apply get_available_quantity_of_products_run.
    + now apply get_status_run.
  - intros Hz. split.
    + now apply get_available_quantity_of_products_all_zero.
    + unfold get_status, bind.
      now rewrite get_available_quantity_of_products_all_zero.
Qed.

(** C8. Deleting a component that a composition still refers to raises
    [ProtectedError] and leaves the store exactly as it was: the component
    row stays and no composition row is removed or changed. *)
Theorem C8_referenced_component_is_protected
        (c : ProductComponent.t) (k : ProductComposition.t) (db : DB) :
  In k (composition_table db) ->
  ProductComposition.component k = ProductComponent.id c ->
  ProductComponent_delete c db = (db, inl ProtectedError).
Proof.
  intros Hin Hk.
  unfold ProductComponent_delete, bind, productcomposition_set_of_component, query.
  assert (Hk' : In k (filter (fun x => ProductComposition.component x
                                       =? ProductComponent.id c)
                             (composition_table db)))
    by (apply filter_In; split; [exact Hin | now apply Z.eqb_eq]).
  destruct (filter _ (composition_table db)); [contradiction | reflexivity].
Qed.

(** An unreferenced component is deleted. *)
Lemma ProductComponent_delete_unreferenced (c : ProductComponent.t) (db : DB) :
  compositions_using (ProductComponent.id c) db = [] ->
  ProductComponent_delete c db
  = (with_components (db_delete (ProductComponent.id c) (component_table db)) db,
     inr tt).
Proof.
  intros Hnone.
  unfold ProductComponent_delete, bind, productcomposition_set_of_component, query.
  unfold compositions_using in Hnone. now rewrite Hnone.
Qed.

Lemma presaved_ext (db db' : DB) (p : Product.t) :
  component_table db = component_table db' ->
  composition_table db = composition_table db' ->
  presaved db p = presaved db' p.
Proof.
  intros Hc Hk.
  unfold presaved, first_component_status, component_of, compositions_of.
  now rewrite Hc, Hk.
Qed.

Lemma product_saved_row (r : Product.t) (db : DB) :
  objects_get (Product.id r) (product_table (product_saved r db)) = Some r.
Proof. exact (objects_get_save_same r (product_table db)). Qed.

(** C2, as amended.  Once the write or the deletion of a composition has
    settled, the price stored for the product the composition instance
    refers to is the sum, over the compositions the product then has, of
    quantity x component price; after the deletion of the product's only
    composition that price is 0.  The rows of the other products are not
    touched, also the row of a product the write took the composition from. *)
Theorem C2_price_is_sum_over_remaining_compositions
        (c : ProductComposition.t) (db : DB) :
  integrity db = true ->
  fk_resolves db c = true ->
  (exists db' p,
      ProductComposition_save c db = (db', inr tt)
      /\ composition_table db' = db_save c (composition_table db)
      /\ component_table db' = component_table db
      /\ objects_get (ProductComposition.product c) (product_table db') = Some p
      /\ (Product.price p
          == sum_of_line_costs db' (ProductComposition.product c))%Q
      /\ (forall other, other <> ProductComposition.product c ->
          objects_get other (product_table db')
          = objects_get other (product_table db)))
  /\ (exists db' p,
      ProductComposition_delete c db = (db', inr tt)
      /\ composition_table db'
         = db_delete (ProductComposition.id c) (composition_table db)
      /\ component_table db' = component_table db
      /\ objects_get (ProductComposition.product c) (product_table db') = Some p
      /\ (Product.price p
          == sum_of_line_costs db' (ProductComposition.product c))%Q
      /\ (compositions_of (ProductComposition.product c) db = [c] ->
          (Product.price p == 0)%Q)
      /\ (forall other, other <> ProductComposition.product c ->
          objects_get other (product_table db')
          = objects_get other (product_table db))).
Proof.
  intros Hi Hfk. destruct (fk_resolves_product db c Hfk) as [p0 Hp0].
  destruct (objects_get_Some _ _ _ Hp0) as [_ Hid].
  change (pk p0) with (Product.id p0) in Hid.
  unfold integrity in Hi. apply andb_prop in Hi. destruct Hi as [_ Hf].
  assert (Hother : forall db1 other,
             other <> ProductComposition.product c ->
             objects_get other (db_save (recomputed db1 p0) (product_table db))
             = objects_get other (product_table db)).
  { intros db1 other Hne. apply objects_get_save_other.
    change (pk (recomputed db1 p0)) with (Product.id (recomputed db1 p0)).
    rewrite recomputed_id. congruence. }
  split.
  - set (db1 := with_compositions (db_save c (composition_table db)) db).
    exists (product_saved (recomputed db1 p0) db1), (recomputed db1 p0).
    split; [exact (ProductComposition_save_run db c p0 Hf Hfk Hp0)|].
    split; [reflexivity|]. split; [reflexivity|]. split; [|split].
    + rewrite <- Hid, <- (recomputed_id db1 p0).
      exact (product_saved_row (recomputed db1 p0) db1).
    + rewrite recomputed_price, Hid.
      exact (price_loop_sum db1 (ProductComposition.product c)).
    + exact (Hother db1).
  - set (db1 := with_compositions
                  (db_delete (ProductComposition.id c) (composition_table db)) db).
    exists (product_saved (recomputed db1 p0) db1), (recomputed db1 p0).
    split; [exact (ProductComposition_delete_run db c p0 Hf Hp0)|].
    split; [reflexivity|]. split; [reflexivity|]. split.
    { rewrite <- Hid, <- (recomputed_id db1 p0).
      exact (product_saved_row (recomputed db1 p0) db1). }
    split; [|split].
    + rewrite recomputed_price, Hid.
      exact (price_loop_sum db1 (ProductComposition.product c)).
    + intros Honly. rewrite recomputed_price, Hid, price_loop_sum.
      assert (Hnone : compositions_of (ProductComposition.product c) db1 = [])
        by exact (filter_db_delete_only _ c _ Honly).
      unfold sum_of_line_costs. rewrite Hnone. reflexivity.
    + exact (Hother db1).
Qed.

(** C7. Recomputing a product twice in a row, with no write in between,
    leaves after the second run the row the first run stored, hence the same
    [price], [new_price] and [status]; the product, component and
    composition tables are the same after both runs.  This holds for the
    recomputation a composition write triggers and for the product write
    with its pre-save receiver. *)
Theorem C7_recomputation_is_idempotent
        (c : ProductComposition.t) (p : Product.t) (db : DB) :
  integrity db = true ->
  In c (composition_table db) ->
  (exists db1 db2 r,
      save_product_after_save c db = (db1, inr tt)
      /\ save_product_after_save c db1 = (db2, inr tt)
      /\ objects_get (ProductComposition.product c) (product_table db1) = Some r
      /\ objects_get (ProductComposition.product c) (product_table db2) = Some r
      /\ catalog db2 = catalog db1)
  /\ (exists db1 db2 r,
      Product_save p db = (db1, inr r)
      /\ Product_save r db1 = (db2, inr r)
      /\ objects_get (Product.id p) (product_table db1) = Some r
      /\ objects_get (Product.id p) (product_table db2) = Some r
      /\ catalog db2 = catalog db1).
Proof.
  intros Hi Hin. split.
  - pose proof (integrity_fk db c Hi Hin) as Hfk.
    destruct (fk_resolves_product db c Hfk) as [p0 Hp0].
    destruct (objects_get_Some _ _ _ Hp0) as [_ Hid].
    change (pk p0) with (Product.id p0) in Hid.
    set (r := recomputed db p0). set (db1 := product_saved r db).
    assert (Hr : objects_get (ProductComposition.product c) (product_table db1)
                 = Some r).
    { rewrite <- Hid, <- (recomputed_id db p0).
      exact (product_saved_row r db). }
    assert (Hrr : recomputed db1 r = r).
    { rewrite (recomputed_ext db1 db r eq_refl eq_refl).
      apply recomputed_idem. }
    exists db1, (product_saved r db1), r.
    split; [apply save_product_after_save_run;
            [exact Hp0 | now apply integrity_components_present]|].
    split.
    { rewrite <- Hrr at 1. apply save_product_after_save_run; [exact Hr|].
      apply integrity_components_present.
      now apply integrity_product_saved. }
    split; [exact Hr|]. split.
    { rewrite <- Hid, <- (recomputed_id db p0).
      exact (product_saved_row r db1). }
    unfold catalog. cbn [product_saved product_table component_table
      composition_table with_products with_orderitems db1].
    now rewrite db_save_idem.
  - set (r := presaved db p). set (db1 := product_saved r db).
    assert (Hrr : presaved db1 r = r).
    { rewrite (presaved_ext db1 db r eq_refl eq_refl). apply presaved_idem. }
    exists db1, (product_saved r db1), r.
    split; [apply Product_save_run; now apply integrity_components_present|].
    split.
    { rewrite <- Hrr at 2 3. apply Product_save_run.
      apply integrity_components_present. now apply integrity_product_saved. }
    split; [rewrite <- (presaved_id db p); exact (product_saved_row r db)|].
    split; [rewrite <- (presaved_id db p); exact (product_saved_row r db1)|].
    unfold catalog. cbn [product_saved product_table component_table
      composition_table with_products with_orderitems db1].
    now rewrite db_save_idem.
Qed.

(** C6. When a component write has run its cascade, the component row
    holds the new values, the composition rows are as they were, and every
    product that owns a composition of the component has a row whose price
    is the sum of its line costs at the new component price, whose status
    is the one derived from the new stock and availability, and whose
    [new_price] is the discounted price.  Saving the compositions in any
    other order ends in the same product, component and composition tables. *)
Theorem C6_component_write_recomputes_every_owner
        (c : ProductComponent.t) (db : DB) :
  integrity db = true ->
  let written :=
    with_components (db_save (add_new_arrival c) (component_table db)) db in
  exists db',
    ProductComponent_save c db = (db', inr (add_new_arrival c))
    /\ component_table db' = component_table written
    /\ objects_get (ProductComponent.id c) (component_table db')
       = Some (add_new_arrival c)
    /\ composition_table db' = composition_table db
    /\ (forall k,
           In k (composition_table db) ->
           ProductComposition.component k = ProductComponent.id c ->
           exists r,
             objects_get (ProductComposition.product k) (product_table db')
             = Some r
             /\ (Product.price r
                 == sum_of_line_costs db' (ProductComposition.product k))%Q
             /\ Product.status r
                = derived_status db' (ProductComposition.product k)
             /\ (Product.new_price r
                 == Product.price r * inject_Z (100 - Product.discount r) / 100)%Q)
    /\ (forall l,
           Permutation l (compositions_using (ProductComponent.id c) written) ->
           exists db'',
             for_each l ProductComposition_save written = (db'', inr tt)
             /\ catalog db'' = catalog db').
Proof.
  intros Hi written.
  destruct (ProductComponent_save_run c db Hi)
    as [db' [Hrun [Hcomp [Hcompo [Hrows Hperm]]]]].
  fold written in Hcomp, Hrows, Hperm.
  exists db'. split; [exact Hrun|]. split; [exact Hcomp|]. split.
  { rewrite Hcomp.
    exact (objects_get_save_same (add_new_arrival c) (component_table db)). }
  split; [exact Hcompo|]. split; [|exact Hperm].
  intros k Hin Hk. destruct (Hrows k Hin Hk) as [p [Hid Hp]].
  exists (recomputed written p). split; [exact Hp|].
  rewrite (sum_of_line_costs_ext db' written _ Hcomp Hcompo).
  rewrite (derived_status_ext db' written _ Hcomp Hcompo).
  rewrite <- Hid. split; [|split].
  - rewrite recomputed_price. apply price_loop_sum.
  - apply recomputed_status.
  - apply recomputed_new_price.
Qed.

(** C4, as amended.  After the write or the deletion of a composition, the
    product the composition instance refers to, when all of its components
    are available, is "available" when the minimum over its compositions of
    floor(stock / quantity) is positive and "only to order" otherwise
    (compositions with quantity 0 supply no term to the minimum, see C9);
    the rows of the other products are not touched, also the row of a
    product the write took the composition from.  And when the stock of the
    component of a product's only composition is set to 0, the product
    becomes "only to order" if the component is available and "unavailable"
    if it is not. *)
Theorem C4_status_follows_stock
        (c : ProductComposition.t) (x : ProductComponent.t) (db : DB) :
  integrity db = true ->
  fk_resolves db c = true ->
  (exists db' p,
      ProductComposition_save c db = (db', inr tt)
      /\ objects_get (ProductComposition.product c) (product_table db') = Some p
      /\ (all_components_available db' (ProductComposition.product c) = true ->
          Product.status p
          = status_from_minimum db' (ProductComposition.product c))
      /\ (forall other, other <> ProductComposition.product c ->
          objects_get other (product_table db')
          = objects_get other (product_table db)))
  /\ (exists db' p,
      ProductComposition_delete c db = (db', inr tt)
      /\ objects_get (ProductComposition.product c) (product_table db') = Some p
      /\ (all_components_available db' (ProductComposition.product c) = true ->
          Product.status p
          = status_from_minimum db' (ProductComposition.product c))
      /\ (forall other, other <> ProductComposition.product c ->
          objects_get other (product_table db')
          = objects_get other (product_table db)))
  /\ (compositions_of (ProductComposition.product c) db = [c] ->
      ProductComposition.component c = ProductComponent.id x ->
      ProductComponent.quantity_in_stock x + ProductComponent.new_arrival x = 0 ->
      exists db' x' p,
        ProductComponent_save x db = (db', inr x')
        /\ objects_get (ProductComponent.id x) (component_table db') = Some x'
        /\ ProductComponent.quantity_in_stock x' = 0
        /\ ProductComponent.available x' = ProductComponent.available x
        /\ objects_get (ProductComposition.product c) (product_table db') = Some p
        /\ Product.status p
           = if ProductComponent.available x
             then STATUS_ONLY_ORDER else STATUS_UNAVAILABLE).
Proof.
  intros Hi Hfk. destruct (fk_resolves_product db c Hfk) as [p0 Hp0].
  destruct (objects_get_Some _ _ _ Hp0) as [_ Hid].
  change (pk p0) with (Product.id p0) in Hid.
  pose proof Hi as Hi'. unfold integrity in Hi'. apply andb_prop in Hi'.
  destruct Hi' as [_ Hf].
  assert (Hother : forall db1 other,
             other <> ProductComposition.product c ->
             objects_get other (db_save (recomputed db1 p0) (product_table db))
             = objects_get other (product_table db)).
  { intros db1 other Hne. apply objects_get_save_other.
    change (pk (recomputed db1 p0)) with (Product.id (recomputed db1 p0)).
    rewrite recomputed_id. congruence. }
  split; [|split].
  - set (db1 := with_compositions (db_save c (composition_table db)) db).
    exists (product_saved (recomputed db1 p0) db1), (recomputed db1 p0).
    split; [exact (ProductComposition_save_run db c p0 Hf Hfk Hp0)|].
    split; [|split].
    + rewrite <- Hid, <- (recomputed_id db1 p0).
      exact (product_saved_row (recomputed db1 p0) db1).
    + intros Ha. rewrite recomputed_status, Hid.
      exact (derived_status_all_available db1 _ Ha).
    + exact (Hother db1).
  - set (db1 := with_compositions
                  (db_delete (ProductComposition.id c) (composition_table db)) db).
    exists (product_saved (recomputed db1 p0) db1), (recomputed db1 p0).
    split; [exact (ProductComposition_delete_run db c p0 Hf Hp0)|].
    split; [|split].
    + rewrite <- Hid, <- (recomputed_id db1 p0).
      exact (product_saved_row (recomputed db1 p0) db1).
    + intros Ha. rewrite recomputed_status, Hid.
      exact (derived_status_all_available db1 _ Ha).
    + exact (Hother db1).
  - intros Hsole Hcx Hzero.
    destruct (ProductComponent_save_run x db Hi)
      as [db' [Hrun [Hcomp [Hcompo [Hrows _]]]]].
    set (written := with_components
                      (db_save (add_new_arrival x) (component_table db)) db) in *.
    assert (Hin : In c (composition_table db)).
    { assert (H1 : In c (compositions_of (ProductComposition.product c) db))
        by (rewrite Hsole; now left).
      now apply filter_In in H1. }
    destruct (Hrows c Hin Hcx) as [p [Hpid Hp]].
    exists db', (add_new_arrival x), (recomputed written p).
    split; [exact Hrun|]. split.
    { rewrite Hcomp.
      exact (objects_get_save_same (add_new_arrival x) (component_table db)). }
    split; [exact Hzero|]. split; [reflexivity|]. split; [exact Hp|].
    rewrite recomputed_status, Hpid.
    assert (Hx : component_of written c = Some (add_new_arrival x)).
    { unfold component_of. rewrite Hcx.
      exact (objects_get_save_same (add_new_arrival x) (component_table db)). }
    unfold derived_status, status_from_minimum, first_component_status, units,
      stock_of.
    change (compositions_of (ProductComposition.product c) written)
      with (compositions_of (ProductComposition.product c) db).
    rewrite Hsole. cbn [filter map]. rewrite Hx.
    cbn [option_map ProductComponent.available add_new_arrival].
    destruct (ProductComponent.available x); [|reflexivity].
    destruct (0 <? ProductComposition.quantity c); cbn [map minimum fold_right];
      [|reflexivity].
    rewrite Hx. cbn [ProductComponent.quantity_in_stock add_new_arrival].
    rewrite Hzero, Zdiv_0_l. reflexivity.
Qed.

(** What the pre-save receiver does get right: the component of the first
    composition. *)
Lemma Product_save_first_component_unavailable (p : Product.t) (db : DB) :
  integrity db = true ->
  first_component_status db (Product.id p) = Some false ->
  exists db' p',
    Product_save p db = (db', inr p')
    /\ objects_get (Product.id p) (product_table db') = Some p'
    /\ Product.status p' = STATUS_UNAVAILABLE.
Proof.
  intros Hi Hfirst.
  exists (product_saved (presaved db p) db), (presaved db p).
  split; [apply Product_save_run; now apply integrity_components_present|].
  split.
  - rewrite <- (presaved_id db p). exact (product_saved_row (presaved db p) db).
  - unfold presaved. now rewrite Hfirst.
Qed.

Lemma Product_save_first_component_not_unavailable (p : Product.t) (db : DB) :
  integrity db = true ->
  first_component_status db (Product.id p) <> Some false ->
  exists db' p',
    Product_save p db = (db', inr p')
    /\ objects_get (Product.id p) (product_table db') = Some p'
    /\ Product.status p' = Product.status p.
Proof.
  intros Hi Hfirst.
  exists (product_saved (presaved db p) db), (presaved db p).
  split; [apply Product_save_run; now apply integrity_components_present|].
  split.
  - rewrite <- (presaved_id db p). exact (product_saved_row (presaved db p) db).
  - unfold presaved.
    destruct (first_component_status db (Product.id p)) as [[|]|];
      try reflexivity. congruence.
Qed.

(** C1, the code at the failing input.  The bouquet of [mixed_shop] is made
    of roses and of lilies, and the lilies are not available; the store has
    integrity.  The product write succeeds and stores the status
    "available": [get_productcomponent_status] returned from inside its loop
    with the availability of the roses, the first composition. *)
Theorem C1_unavailable_second_component_is_missed :
  integrity mixed_shop = true
  /\ In lilies_in_bouquet (compositions_of (Product.id bouquet) mixed_shop)
  /\ component_available mixed_shop lilies_in_bouquet = false
  /\ get_productcomponent_status bouquet mixed_shop = (mixed_shop, inr (Some true))
  /\ exists db' p',
       Product_save bouquet mixed_shop = (db', inr p')
       /\ objects_get (Product.id bouquet) (product_table db') = Some p'
       /\ Product.status p' = STATUS_AVAILABLE
       /\ Product.status p' <> STATUS_UNAVAILABLE.
Proof.
  split; [reflexivity|]. split; [right; left; reflexivity|].
  split; [reflexivity|]. split; [reflexivity|].
  eexists. eexists. split; [reflexivity|].
  split; [reflexivity|]. split; [reflexivity | discriminate].
Qed.

(** * Further properties of the cascade *)

Lemma first_component_status_available (db : DB) (pid : Z) :
  components_present db pid ->
  first_component_status db pid
  = match compositions_of pid db with
    | c :: _ => Some (component_available db c)
    | [] => None
    end.
Proof.
  intros Hc. unfold first_component_status, component_available.
  unfold components_present in Hc.
  destruct (compositions_of pid db) as [|c cs]; [reflexivity|].
  specialize (Hc c (or_introl eq_refl)). apply has_pk_true in Hc.
  destruct Hc as [x Hx]. unfold component_of. now rewrite Hx.
Qed.

(** X1. A product write stores "unavailable" when the component of the
    product's first composition is not available; in every other case, also
    when the product has no composition, it stores the status the instance
    carried, which the receiver never resets.  So the status stored is
    "unavailable" exactly when that component is not available or the
    instance carried "unavailable" already. *)
Theorem X1_product_write_status (p : Product.t) (db : DB) :
  integrity db = true ->
  exists db' p',
    Product_save p db = (db', inr p')
    /\ objects_get (Product.id p) (product_table db') = Some p'
    /\ Product.status p'
       = match compositions_of (Product.id p) db with
         | c :: _ =>
             if component_available db c
             then Product.status p else STATUS_UNAVAILABLE
         | [] => Product.status p
         end
    /\ (Product.status p' = STATUS_UNAVAILABLE <->
        Product.status p = STATUS_UNAVAILABLE
        \/ exists c cs,
             compositions_of (Product.id p) db = c :: cs
             /\ component_available db c = false).
Proof.
  intros Hi.
  pose proof (integrity_components_present db (Product.id p) Hi) as Hc.
  exists (product_saved (presaved db p) db), (presaved db p).
  split; [now apply Product_save_run|]. split.
  { rewrite <- (presaved_id db p). exact (product_saved_row (presaved db p) db). }
  assert (Hstatus :
            Product.status (presaved db p)
            = match compositions_of (Product.id p) db with
              | c :: _ =>
                  if component_available db c
                  then Product.status p else STATUS_UNAVAILABLE
              | [] => Product.status p
              end).
  { unfold presaved. rewrite (first_component_status_available db _ Hc).
    destruct (compositions_of (Product.id p) db) as [|c cs]; [reflexivity|].
    now destruct (component_available db c). }
  split; [exact Hstatus|]. rewrite Hstatus.
  destruct (compositions_of (Product.id p) db) as [|c cs].
  - split; [now left|]. intros [E|[c' [cs' [E _]]]]; [exact E | discriminate].
  - destruct (component_available db c) eqn:Ha.
    + split; [now left|].
      intros [E|[c' [cs' [E Hu]]]]; [exact E|].
      injection E as <- <-. congruence.
    + split; [|reflexivity]. intros _. right. now exists c, cs.
Qed.

Lemma derived_status_range (db : DB) (pid : Z) :
  derived_status db pid = STATUS_AVAILABLE
  \/ derived_status db pid = STATUS_ONLY_ORDER
  \/ derived_status db pid = STATUS_UNAVAILABLE.
Proof.
  unfold derived_status, status_from_minimum.
  destruct (first_component_status db pid) as [[|]|];
    try (destruct (minimum (units db pid)) as [m|];
         [destruct (0 <? m)|]); auto.
Qed.

(** X2. Whatever status a product had, the recomputation behind the write
    or the deletion of one of its compositions stores "available", "only to
    order" or "unavailable": the initial status "under review" does not
    survive it. *)
Theorem X2_recomputation_leaves_review
        (c : ProductComposition.t) (db : DB) :
  integrity db = true ->
  fk_resolves db c = true ->
  (exists db' p,
      ProductComposition_save c db = (db', inr tt)
      /\ objects_get (ProductComposition.product c) (product_table db') = Some p
      /\ (Product.status p = STATUS_AVAILABLE
          \/ Product.status p = STATUS_ONLY_ORDER
          \/ Product.status p = STATUS_UNAVAILABLE)
      /\ Product.status p <> STATUS_REVIEW)
  /\ (exists db' p,
      ProductComposition_delete c db = (db', inr tt)
      /\ objects_get (ProductComposition.product c) (product_table db') = Some p
      /\ (Product.status p = STATUS_AVAILABLE
          \/ Product.status p = STATUS_ONLY_ORDER
          \/ Product.status p = STATUS_UNAVAILABLE)
      /\ Product.status p <> STATUS_REVIEW).
Proof.
  intros Hi Hfk. destruct (fk_resolves_product db c Hfk) as [p0 Hp0].
  destruct (objects_get_Some _ _ _ Hp0) as [_ Hid].
  change (pk p0) with (Product.id p0) in Hid.
  unfold integrity in Hi. apply andb_prop in Hi. destruct Hi as [_ Hf].
  assert (Hrange : forall db1,
             (Product.status (recomputed db1 p0) = STATUS_AVAILABLE
              \/ Product.status (recomputed db1 p0) = STATUS_ONLY_ORDER
              \/ Product.status (recomputed db1 p0) = STATUS_UNAVAILABLE)
             /\ Product.status (recomputed db1 p0) <> STATUS_REVIEW).
  { intros db1. rewrite recomputed_status.
    destruct (derived_status_range db1 (Product.id p0)) as [E|[E|E]];
      rewrite E; split; auto; discriminate. }
  split.
  - set (db1 := with_compositions (db_save c (composition_table db)) db).
    exists (product_saved (recomputed db1 p0) db1), (recomputed db1 p0).
    split; [exact (ProductComposition_save_run db c p0 Hf Hfk Hp0)|]. split.
    + rewrite <- Hid, <- (recomputed_id db1 p0).
      exact (product_saved_row (recomputed db1 p0) db1).
    + apply Hrange.
  - set (db1 := with_compositions
                  (db_delete (ProductComposition.id c) (composition_table db)) db).
    exists (product_saved (recomputed db1 p0) db1), (recomputed db1 p0).
    split; [exact (ProductComposition_delete_run db c p0 Hf Hp0)|]. split.
    + rewrite <- Hid, <- (recomputed_id db1 p0).
      exact (product_saved_row (recomputed db1 p0) db1).
    + apply Hrange.
Qed.

(** ** What the available quantity means *)

Lemma fold_min_le (x : Z) (xs : list Z) (u : Z) :
  In u (x :: xs) -> fold_right Z.min x xs <= u.
Proof.
  induction xs as [|y ys IH]; cbn.
  - intros [<-|[]]. lia.
  - intros [<-|[<-|Hu]].
    + assert (fold_right Z.min x ys <= x) by (apply IH; now left). lia.
    + lia.
    + assert (fold_right Z.min x ys <= u) by (apply IH; now right). lia.
Qed.

Lemma fold_min_In (x : Z) (xs : list Z) :
  In (fold_right Z.min x xs) (x :: xs).
Proof.
  induction xs as [|y ys IH]; cbn; [now left|].
  destruct (Z.min_spec y (fold_right Z.min x ys)) as [[_ ->]|[_ ->]].
  - right. now left.
  - destruct IH as [IH|IH]; [now left | right; now right].
Qed.

Lemma units_In (db : DB) (pid : Z) (u : Z) :
  In u (units db pid) <->
  exists c, In c (compositions_of pid db)
            /\ 0 < ProductComposition.quantity c
            /\ u = stock_of db c / ProductComposition.quantity c.
Proof.
  unfold units. rewrite in_map_iff. split.
  - intros [c [<- Hc]]. apply filter_In in Hc. destruct Hc as [Hin Hq].
    exists c. repeat split; [exact Hin | now apply Z.ltb_lt].
  - intros [c [Hin [Hq ->]]]. exists c. split; [reflexivity|].
    apply filter_In. split; [exact Hin | now apply Z.ltb_lt].
Qed.

Lemma available_quantity_le (db : DB) (pid : Z) (c : ProductComposition.t) :
  In c (compositions_of pid db) ->
  0 < ProductComposition.quantity c ->
  available_quantity db pid <= stock_of db c / ProductComposition.quantity c.
Proof.
  intros Hin Hq.
  assert (Hu : In (stock_of db c / ProductComposition.quantity c) (units db pid))
    by (apply units_In; now exists c).
  unfold available_quantity. destruct (units db pid) as [|x xs]; [contradiction|].
  rewrite py_min_spec. now apply fold_min_le.
Qed.

Lemma available_quantity_attained (db : DB) (pid : Z) :
  units db pid <> [] ->
  exists c, In c (compositions_of pid db)
            /\ 0 < ProductComposition.quantity c
            /\ available_quantity db pid
               = stock_of db c / ProductComposition.quantity c.
Proof.
  intros Hne. apply units_In. unfold available_quantity.
  destruct (units db pid) as [|x xs]; [contradiction|].
  rewrite py_min_spec. apply fold_min_In.
Qed.

Lemma units_nonempty (db : DB) (pid : Z) (c : ProductComposition.t) :
  In c (compositions_of pid db) ->
  0 < ProductComposition.quantity c ->
  units db pid <> [].
Proof.
  intros Hin Hq Hnil.
  assert (Hu : In (stock_of db c / ProductComposition.quantity c) (units db pid))
    by (apply units_In; now exists c).
  rewrite Hnil in Hu. contradiction.
Qed.

Lemma units_empty (db : DB) (pid : Z) :
  (forall c, In c (compositions_of pid db) -> ProductComposition.quantity c <= 0) ->
  units db pid = [].
Proof.
  intros Hall. destruct (units db pid) as [|u us] eqn:E; [reflexivity|].
  assert (Hu : In u (units db pid)) by (rewrite E; now left).
  apply units_In in Hu. destruct Hu as [c [Hin [Hq _]]].
  specialize (Hall c Hin). lia.
Qed.

(** X3. The available quantity is the largest number of product units the
    stock can supply: every composition with a positive quantity has stock
    for that many units, and, when there is such a composition, one of them
    has no stock for one unit more.  With no composition of positive
    quantity the answer is 0. *)
Theorem X3_available_quantity_is_the_supply (p : Product.t) (db : DB) :
  integrity db = true ->
  exists n,
    get_available_quantity_of_products p db = (db, inr n)
    /\ (forall c,
           In c (compositions_of (Product.id p) db) ->
           0 < ProductComposition.quantity c ->
           n * ProductComposition.quantity c <= stock_of db c)
    /\ (forall c,
           In c (compositions_of (Product.id p) db) ->
           0 < ProductComposition.quantity c ->
           exists c',
             In c' (compositions_of (Product.id p) db)
             /\ 0 < ProductComposition.quantity c'
             /\ stock_of db c' < (n + 1) * ProductComposition.quantity c')
    /\ ((forall c, In c (compositions_of (Product.id p) db) ->
                   ProductComposition.quantity c <= 0) ->
        n = 0).
Proof.
  intros Hi. exists (available_quantity db (Product.id p)).
  split; [apply get_available_quantity_of_products_run;
          now apply integrity_components_present|].
  split; [|split].
  - intros c Hin Hq. pose proof (available_quantity_le db _ c Hin Hq) as Hle.
    pose proof (Z.mul_div_le (stock_of db c) _ Hq). nia.
  - intros c Hin Hq.
    destruct (available_quantity_attained db (Product.id p)
                (units_nonempty db _ c Hin Hq)) as [c' [Hin' [Hq' ->]]].
    exists c'. split; [exact Hin'|]. split; [exact Hq'|].
    pose proof (Z.mul_succ_div_gt (stock_of db c') _ Hq'). lia.
  - intros Hall. unfold available_quantity.
    now rewrite (units_empty db _ Hall).
Qed.

Lemma unit_positive (a q : Z) : 0 < q -> (0 < a / q <-> q <= a).
Proof.
  intros Hq. split.
  - intros Hpos. pose proof (Z.mul_div_le a q Hq). nia.
  - intros Hle. apply Z.lt_le_trans with (m := 1); [lia|].
    apply Z.div_le_lower_bound; lia.
Qed.

(** X4. [get_status] answers "available" exactly when the product has a
    composition of positive quantity and the stock of each such composition
    covers its quantity, that is, when one unit can be made; in every other
    case it answers "only to order". *)
Theorem X4_available_means_one_unit_can_be_made (p : Product.t) (db : DB) :
  integrity db = true ->
  exists s,
    get_status p db = (db, inr s)
    /\ (s = STATUS_AVAILABLE \/ s = STATUS_ONLY_ORDER)
    /\ (s = STATUS_AVAILABLE <->
        (exists c, In c (compositions_of (Product.id p) db)
                   /\ 0 < ProductComposition.quantity c)
        /\ (forall c, In c (compositions_of (Product.id p) db) ->
                      0 < ProductComposition.quantity c ->
                      ProductComposition.quantity c <= stock_of db c)).
Proof.
  intros Hi. exists (status_by_stock db (Product.id p)).
  split; [apply get_status_run; now apply integrity_components_present|].
  unfold status_by_stock. rewrite Z.gtb_ltb.
  destruct (Z.ltb_spec 0 (available_quantity db (Product.id p))) as [Hpos|Hnpos].
  - split; [now left|]. split; [intros _|reflexivity]. split.
    + destruct (units db (Product.id p)) as [|u us] eqn:E.
      * unfold available_quantity in Hpos. rewrite E in Hpos. lia.
      * assert (Hu : In u (units db (Product.id p))) by (rewrite E; now left).
        apply units_In in Hu. destruct Hu as [c [Hin [Hq _]]]. now exists c.
    + intros c Hin Hq. apply (unit_positive _ _ Hq).
      pose proof (available_quantity_le db _ c Hin Hq). lia.
  - split; [now right|]. split; [discriminate|].
    intros [[c [Hin Hq]] Hall]. exfalso.
    destruct (available_quantity_attained db (Product.id p)
                (units_nonempty db _ c Hin Hq)) as [c' [Hin' [Hq' E]]].
    pose proof (proj2 (unit_positive (stock_of db c') _ Hq') (Hall c' Hin' Hq')).
    lia.
Qed.

(** ** Bounds on the discounted price *)

Lemma get_new_price_bounds (p : Product.t) :
  0 <= Product.discount p <= 100 ->
  (0 <= Product.price p)%Q ->
  (0 <= get_new_price p)%Q /\ (get_new_price p <= Product.price p)%Q.
Proof.
  intros [Hlo Hhi] Hprice. rewrite get_new_price_exact.
  assert (H0 : (0 <= inject_Z (100 - Product.discount p))%Q)
    by (rewrite <- (Zle_Qle 0); lia).
  assert (H100 : (inject_Z (100 - Product.discount p) <= 100)%Q)
    by (change 100%Q with (inject_Z 100); rewrite <- Zle_Qle; lia).
  set (k := inject_Z (100 - Product.discount p)) in *.
  set (x := Product.price p) in *. clearbody k x.
  assert (Hxk : (0 <= x * k)%Q) by now apply Qmult_le_0_compat.
  assert (Hxk' : (0 <= x * (100 - k))%Q)
    by (apply Qmult_le_0_compat; [exact Hprice | lra]).
  assert (Hsplit : (x * (100 - k) == x * 100 - x * k)%Q) by ring.
  rewrite Hsplit in Hxk'. change (inject_Z 100) with 100%Q.
  split.
  - apply Qle_shift_div_l; [reflexivity | lra].
  - apply Qle_shift_div_r; [reflexivity | lra].
Qed.

(** X5. With a discount within the bounds of its validators, 0 to 100, and
    a price that is not negative, the [new_price] a product write stores
    lies between 0 and the price; it is the price itself at discount 0 and 0
    at discount 100. *)
Theorem X5_new_price_between_zero_and_price (p : Product.t) (db : DB) :
  integrity db = true ->
  0 <= Product.discount p <= 100 ->
  (0 <= Product.price p)%Q ->
  exists db' p',
    Product_save p db = (db', inr p')
    /\ objects_get (Product.id p) (product_table db') = Some p'
    /\ (0 <= Product.new_price p')%Q
    /\ (Product.new_price p' <= Product.price p')%Q
    /\ (Product.discount p = 0 -> (Product.new_price p' == Product.price p')%Q)
    /\ (Product.discount p = 100 -> (Product.new_price p' == 0)%Q).
Proof.
  intros Hi Hd Hprice.
  exists (product_saved (presaved db p) db), (presaved db p).
  split; [apply Product_save_run; now apply integrity_components_present|].
  split.
  { rewrite <- (presaved_id db p). exact (product_saved_row (presaved db p) db). }
  rewrite presaved_new_price, presaved_price.
  destruct (get_new_price_bounds p Hd Hprice) as [Hlo Hhi].
  repeat split; try assumption.
  - intros E. rewrite get_new_price_exact, E.
    change (inject_Z (100 - 0)) with 100%Q. field.
  - intros E. rewrite get_new_price_exact, E.
    change (inject_Z (100 - 100)) with 0%Q. field.
Qed.

(** ** How the price follows the compositions *)

Lemma sum_app (f : ProductComposition.t -> Q) (l1 l2 : list ProductComposition.t) :
  (fold_right Qplus 0 (map f (l1 ++ l2))
   == fold_right Qplus 0 (map f l1) + fold_right Qplus 0 (map f l2))%Q.
Proof.
  induction l1 as [|c l1 IH]; cbn.
  - ring.
  - rewrite IH. ring.
Qed.

Lemma db_delete_absent {T} `{Model T} (k : Z) (rows : list T) :
  has_pk k rows = false -> db_delete k rows = rows.
Proof.
  intros Hn. unfold db_delete. induction rows as [|x rows IH]; [reflexivity|].
  unfold has_pk in Hn. cbn in Hn |- *. apply orb_false_elim in Hn.
  destruct Hn as [Hx Hrows]. rewrite Hx. cbn. f_equal. now apply IH.
Qed.

Lemma sum_without (f : ProductComposition.t -> Q) (P : ProductComposition.t -> bool)
      (c : ProductComposition.t) (rows : list ProductComposition.t) :
  unique_pks rows = true ->
  In c rows ->
  P c = true ->
  (fold_right Qplus 0 (map f (filter P rows))
   == f c + fold_right Qplus 0 (map f (filter P (db_delete (pk c) rows))))%Q.
Proof.
  induction rows as [|y rows IH]; intros Hu Hin Hc; [contradiction|].
  cbn [unique_pks] in Hu. apply andb_prop in Hu. destruct Hu as [Hy Hu].
  apply negb_true_iff in Hy.
  destruct (Z.eqb_spec (pk y) (pk c)) as [E|E].
  - assert (Hyc : y = c).
    { destruct Hin as [Hin|Hin]; [exact Hin|].
      apply has_pk_In in Hin. congruence. }
    subst y. unfold db_delete at 1. cbn [filter]. rewrite Z.eqb_refl. cbn [negb].
    fold (db_delete (pk c) rows). rewrite (db_delete_absent _ _ Hy), Hc.
    reflexivity.
  - destruct Hin as [Hin|Hin]; [congruence|].
    unfold db_delete at 1. cbn [filter].
    destruct (Z.eqb_spec (pk y) (pk c)) as [|_]; [contradiction|]. cbn [negb].
    fold (db_delete (pk c) rows). cbn [filter].
    destruct (P y); cbn [map fold_right]; rewrite (IH Hu Hin Hc); ring.
Qed.

(** X6. Adding a composition, one whose primary key is not in the table
    yet, raises the price stored for its product by exactly the line cost of
    the new composition, quantity x component price. *)
Theorem X6_new_composition_adds_its_line_cost
        (c : ProductComposition.t) (db : DB) :
  integrity db = true ->
  fk_resolves db c = true ->
  has_pk (ProductComposition.id c) (composition_table db) = false ->
  exists db' p,
    ProductComposition_save c db = (db', inr tt)
    /\ composition_table db' = composition_table db ++ [c]
    /\ objects_get (ProductComposition.product c) (product_table db') = Some p
    /\ (Product.price p
        == sum_of_line_costs db (ProductComposition.product c)
           + line_cost db c)%Q.
Proof.
  intros Hi Hfk Hfresh. destruct (fk_resolves_product db c Hfk) as [p0 Hp0].
  destruct (objects_get_Some _ _ _ Hp0) as [_ Hid].
  change (pk p0) with (Product.id p0) in Hid.
  unfold integrity in Hi. apply andb_prop in Hi. destruct Hi as [_ Hf].
  set (db1 := with_compositions (db_save c (composition_table db)) db).
  assert (Hrows : composition_table db1 = composition_table db ++ [c]).
  { unfold db1. cbn [composition_table with_compositions]. unfold db_save.
    change (pk c) with (ProductComposition.id c). now rewrite Hfresh. }
  exists (product_saved (recomputed db1 p0) db1), (recomputed db1 p0).
  split; [exact (ProductComposition_save_run db c p0 Hf Hfk Hp0)|].
  split; [exact Hrows|]. split.
  - rewrite <- Hid, <- (recomputed_id db1 p0).
    exact (product_saved_row (recomputed db1 p0) db1).
  - rewrite recomputed_price, Hid, price_loop_sum.
    unfold sum_of_line_costs, compositions_of. rewrite Hrows, filter_app.
    change (line_cost db1) with (line_cost db). rewrite sum_app.
    cbn [filter]. rewrite Z.eqb_refl. cbn [map fold_right]. ring.
Qed.

(** X7. Deleting a stored composition lowers the price stored for its
    product by exactly the line cost of that composition: the old sum of
    line costs is the new price plus quantity x component price. *)
Theorem X7_deleted_composition_takes_its_line_cost
        (c : ProductComposition.t) (db : DB) :
  integrity db = true ->
  In c (composition_table db) ->
  exists db' p,
    ProductComposition_delete c db = (db', inr tt)
    /\ objects_get (ProductComposition.product c) (product_table db') = Some p
    /\ (sum_of_line_costs db (ProductComposition.product c)
        == Product.price p + line_cost db c)%Q.
Proof.
  intros Hi Hin. pose proof (integrity_fk db c Hi Hin) as Hfk.
  destruct (fk_resolves_product db c Hfk) as [p0 Hp0].
  destruct (objects_get_Some _ _ _ Hp0) as [_ Hid].
  change (pk p0) with (Product.id p0) in Hid.
  unfold integrity in Hi. apply andb_prop in Hi. destruct Hi as [Hu Hf].
  set (db1 := with_compositions
                (db_delete (ProductComposition.id c) (composition_table db)) db).
  exists (product_saved (recomputed db1 p0) db1), (recomputed db1 p0).
  split; [exact (ProductComposition_delete_run db c p0 Hf Hp0)|]. split.
  - rewrite <- Hid, <- (recomputed_id db1 p0).
    exact (product_saved_row (recomputed db1 p0) db1).
  - rewrite recomputed_price, Hid, price_loop_sum.
    unfold sum_of_line_costs at 1. unfold compositions_of.
    rewrite (sum_without (line_cost db) _ c _ Hu Hin (Z.eqb_refl _)).
    unfold sum_of_line_costs, compositions_of.
    change (line_cost db1) with (line_cost db).
    change (composition_table db1)
      with (db_delete (pk c) (composition_table db)).
    ring.
Qed.

(** ** More on the component write *)

(** X8. Writing a component that no composition refers to changes the
    component table and nothing else: the row is stored with the new
    arrival folded in, and the cascade has nothing to do. *)
Theorem X8_unused_component_write_stays_local
        (x : ProductComponent.t) (db : DB) :
  compositions_using (ProductComponent.id x) db = [] ->
  ProductComponent_save x db
  = (with_components (db_save (add_new_arrival x) (component_table db)) db,
     inr (add_new_arrival x)).
Proof.
  intros Hnone.
  unfold ProductComponent_save, recalculate_quantity_in_stock_before_save,
    save_productcomposition, save_related_productcompositions,
    productcomposition_set_of_component, bind, ret, execute, query.
  cbn [composition_table with_components].
  change (ProductComponent.id (add_new_arrival x)) with (ProductComponent.id x).
  unfold compositions_using in Hnone. now rewrite Hnone.
Qed.

Lemma ProductComponent_save_products (x : ProductComponent.t) (db : DB) :
  integrity db = true ->
  let written :=
    with_components (db_save (add_new_arrival x) (component_table db)) db in
  exists db',
    ProductComponent_save x db = (db', inr (add_new_arrival x))
    /\ product_table db'
       = fold_left (fun rows c =>
                      recompute_row written (ProductComposition.product c) rows)
                   (compositions_using (ProductComponent.id x) db)
                   (product_table db)
    /\ component_table db' = db_save (add_new_arrival x) (component_table db)
    /\ composition_table db' = composition_table db.
Proof.
  intros Hi written.
  pose proof (integrity_with_components (add_new_arrival x) db Hi) as Hi1.
  fold written in Hi1.
  set (l0 := compositions_using (ProductComponent.id x) db).
  assert (Hl0 : forall k, In k l0 -> In k (composition_table written))
    by (intros k Hk; now apply filter_In in Hk).
  destruct (cascade_run written l0 written Hi1 eq_refl eq_refl Hl0)
    as [db' [Hrun [Hprod [Hcomp Hcompo]]]].
  exists db'. split; [|split; [exact Hprod | split; assumption]].
  unfold ProductComponent_save, recalculate_quantity_in_stock_before_save,
    save_productcomposition, save_related_productcompositions,
    productcomposition_set_of_component, bind, ret, execute, query.
  fold written.
  change (filter _ (composition_table written)) with l0.
  now rewrite Hrun.
Qed.

Lemma recompute_rows_other (db : DB) (other : Z) (l : list ProductComposition.t) :
  (forall c, In c l -> ProductComposition.product c <> other) ->
  forall rows,
    objects_get other
      (fold_left (fun rows c =>
                    recompute_row db (ProductComposition.product c) rows) l rows)
    = objects_get other rows.
Proof.
  induction l as [|c l IH]; intros Hl rows; cbn [fold_left]; [reflexivity|].
  rewrite IH by (intros k Hk; apply Hl; now right).
  unfold recompute_row.
  destruct (objects_get (ProductComposition.product c) rows) as [q|] eqn:Hq;
    [|reflexivity].
  apply objects_get_save_other.
  destruct (objects_get_Some _ _ _ Hq) as [_ E].
  change (pk (recomputed db q)) with (Product.id (recomputed db q)).
  rewrite recomputed_id. change (Product.id q) with (pk q). rewrite E.
  apply not_eq_sym. apply Hl. now left.
Qed.

(** X9. A component write leaves alone every product that owns no
    composition of the component: its row is the one it had before. *)
Theorem X9_component_write_spares_other_products
        (x : ProductComponent.t) (other : Z) (db : DB) :
  integrity db = true ->
  (forall c, In c (composition_table db) ->
             ProductComposition.component c = ProductComponent.id x ->
             ProductComposition.product c <> other) ->
  exists db',
    ProductComponent_save x db = (db', inr (add_new_arrival x))
    /\ objects_get other (product_table db')
       = objects_get other (product_table db).
Proof.
  intros Hi Hother.
  destruct (ProductComponent_save_products x db Hi)
    as [db' [Hrun [Hprod _]]].
  exists db'. split; [exact Hrun|]. rewrite Hprod.
  apply recompute_rows_other. intros c Hc. apply filter_In in Hc.
  destruct Hc as [Hin Hx]. apply Hother; [exact Hin | now apply Z.eqb_eq].
Qed.

Lemma add_new_arrival_idem (x : ProductComponent.t) :
  add_new_arrival (add_new_arrival x) = add_new_arrival x.
Proof.
  unfold add_new_arrival. cbn. now rewrite Z.add_0_r.
Qed.

Lemma recompute_row_idem (db : DB) (k : Z) (rows : list Product.t) :
  recompute_row db k (recompute_row db k rows) = recompute_row db k rows.
Proof.
  unfold recompute_row.
  destruct (objects_get k rows) as [q|] eqn:Hq; [|now rewrite Hq].
  destruct (objects_get_Some _ _ _ Hq) as [_ E].
  assert (Hget : objects_get k (db_save (recomputed db q) rows)
                 = Some (recomputed db q)).
  { rewrite <- E. change (pk q) with (Product.id q).
    rewrite <- (recomputed_id db q).
    exact (objects_get_save_same (recomputed db q) rows). }
  rewrite Hget, recomputed_idem. apply db_save_idem.
Qed.

Lemma recompute_rows_absorb_row (db : DB) (k : Z) (l : list ProductComposition.t) :
  forall rows,
    In k (map ProductComposition.product l) ->
    recompute_row db k
      (fold_left (fun rows c =>
                    recompute_row db (ProductComposition.product c) rows) l rows)
    = fold_left (fun rows c =>
                   recompute_row db (ProductComposition.product c) rows) l rows.
Proof.
  induction l as [|c l IH] using rev_ind; intros rows Hk; [contradiction|].
  rewrite fold_left_app. cbn [fold_left].
  destruct (Z.eq_dec (ProductComposition.product c) k) as [<-|Hne].
  - apply recompute_row_idem.
  - rewrite recompute_row_comm. f_equal. apply IH.
    rewrite map_app in Hk. apply in_app_or in Hk.
    destruct Hk as [Hk|[Hk|[]]]; [exact Hk | contradiction].
Qed.

Lemma recompute_rows_absorb (db : DB) (l l2 : list ProductComposition.t) :
  forall rows,
    (forall c, In c l2 ->
               In (ProductComposition.product c)
                  (map ProductComposition.product l)) ->
    fold_left (fun rows c =>
                 recompute_row db (ProductComposition.product c) rows) l2
      (fold_left (fun rows c =>
                    recompute_row db (ProductComposition.product c) rows) l rows)
    = fold_left (fun rows c =>
                   recompute_row db (ProductComposition.product c) rows) l rows.
Proof.
  induction l2 as [|c l2 IH]; intros rows Hl2; [reflexivity|].
  cbn [fold_left].
  rewrite recompute_rows_absorb_row by (apply Hl2; now left).
  apply IH. intros k Hk. apply Hl2. now right.
Qed.

Lemma recompute_row_ext (db db' : DB) (k : Z) (rows : list Product.t) :
  component_table db = component_table db' ->
  composition_table db = composition_table db' ->
  recompute_row db k rows = recompute_row db' k rows.
Proof.
  intros Hc Hk. unfold recompute_row.
  destruct (objects_get k rows); [|reflexivity].
  now rewrite (recomputed_ext db db' _ Hc Hk).
Qed.

Lemma recompute_rows_ext (db db' : DB) (l : list ProductComposition.t) :
  component_table db = component_table db' ->
  composition_table db = composition_table db' ->
  forall rows,
    fold_left (fun rows c =>
                 recompute_row db (ProductComposition.product c) rows) l rows
    = fold_left (fun rows c =>
                   recompute_row db' (ProductComposition.product c) rows) l rows.
Proof.
  intros Hc Hk. induction l as [|c l IH]; intros rows; cbn [fold_left];
    [reflexivity|].
  now rewrite IH, (recompute_row_ext db db' _ _ Hc Hk).
Qed.

(** X10. A new arrival is counted once: saving again the instance that a
    component write returned, with no write in between, leaves the product,
    component and composition tables as the first write left them. *)
Theorem X10_component_write_is_idempotent
        (x : ProductComponent.t) (db : DB) :
  integrity db = true ->
  exists db1 db2 x',
    ProductComponent_save x db = (db1, inr x')
    /\ ProductComponent_save x' db1 = (db2, inr x')
    /\ ProductComponent.new_arrival x' = 0
    /\ catalog db2 = catalog db1.
Proof.
  intros Hi.
  destruct (ProductComponent_save_products x db Hi)
    as [db1 [Hrun1 [Hprod1 [Hcomp1 Hcompo1]]]].
  assert (Hi1 : integrity db1 = true).
  { unfold integrity in *. rewrite Hcompo1. apply andb_prop in Hi.
    destruct Hi as [Hu Hf]. rewrite Hu. cbn.
    rewrite forallb_forall in *. intros c Hc. specialize (Hf c Hc).
    unfold fk_resolves in *. apply andb_prop in Hf. destruct Hf as [Hp Hx].
    rewrite Hcomp1, (has_pk_save _ (add_new_arrival x) _ Hx), andb_true_r.
    rewrite Hprod1.
    clear - Hp. revert Hp. generalize (product_table db).
    induction (compositions_using (ProductComponent.id x) db) as [|k l IH];
      intros rows Hp; cbn [fold_left]; [exact Hp|].
    apply IH. now apply has_pk_recompute_row. }
  destruct (ProductComponent_save_products (add_new_arrival x) db1 Hi1)
    as [db2 [Hrun2 [Hprod2 [Hcomp2 Hcompo2]]]].
  rewrite add_new_arrival_idem in Hrun2, Hprod2, Hcomp2.
  exists db1, db2, (add_new_arrival x).
  split; [exact Hrun1|]. split; [exact Hrun2|]. split; [reflexivity|].
  assert (Hcomp : component_table db2 = component_table db1)
    by (rewrite Hcomp2, Hcomp1; apply db_save_idem).
  unfold catalog. rewrite Hcomp, Hcompo2. f_equal. f_equal.
  rewrite Hprod2.
  change (ProductComponent.id (add_new_arrival x)) with (ProductComponent.id x).
  assert (Hl : compositions_using (ProductComponent.id x) db1
               = compositions_using (ProductComponent.id x) db)
    by (unfold compositions_using; now rewrite Hcompo1).
  rewrite Hl.
  rewrite (recompute_rows_ext
             (with_components
                (db_save (add_new_arrival x) (component_table db1)) db1)
             (with_components
                (db_save (add_new_arrival x) (component_table db)) db)).
  - rewrite Hprod1. apply recompute_rows_absorb.
    intros c Hc. now apply in_map.
  - cbn [component_table with_components]. rewrite Hcomp1. apply db_save_idem.
  - cbn [composition_table with_components]. exact Hcompo1.
Qed.

(** ** What the writes never touch *)

(** X11. Whether they return or raise, a product write and the write or
    deletion of a composition leave every component row as it was, a
    product write leaves every composition row as it was, and the
    properties [get_price], [get_available_quantity_of_products],
    [get_status] and [get_productcomponent_status] write nothing at all. *)
Theorem X11_what_the_writes_never_touch (db : DB) :
  (forall p,
      component_table (fst (Product_save p db)) = component_table db
      /\ composition_table (fst (Product_save p db)) = composition_table db)
  /\ (forall c,
         component_table (fst (ProductComposition_save c db))
         = component_table db
         /\ component_table (fst (ProductComposition_delete c db))
            = component_table db)
  /\ (forall p,
         fst (get_price p db) = db
         /\ fst (get_available_quantity_of_products p db) = db
         /\ fst (get_status p db) = db
         /\ fst (get_productcomponent_status p db) = db).
Proof.
  split; [|split].
  - intros p. split; apply preserves_Product_save; reflexivity.
  - intros c. split.
    + unfold ProductComposition_save.
      apply preserves_bind; [intros d; reflexivity|].
      intros _. apply preserves_save_product_after_save; reflexivity.
    + unfold ProductComposition_delete.
      apply preserves_bind; [intros d; reflexivity|].
      intros _. apply (preserves_save_product_after_save component_table c);
        reflexivity.
  - intros p. split; [apply readonly_get_price|].
    split; [apply readonly_get_available_quantity_of_products|].
    split; [apply readonly_get_status
           | apply readonly_get_productcomponent_status].
Qed.

(** ** Integrity is an invariant *)

Lemma pk_db_update {T} `{Model T} (r : T) (rows : list T) :
  map pk (db_update r rows) = map pk rows.
Proof.
  unfold db_update. rewrite map_map. apply map_ext. intros x.
  destruct (Z.eqb_spec (pk x) (pk r)); congruence.
Qed.

Lemma unique_pks_by_keys {T} `{Model T} (rows rows' : list T) :
  map pk rows = map pk rows' -> unique_pks rows = unique_pks rows'.
Proof.
  revert rows'. induction rows as [|x rows IH]; intros [|y rows'] E;
    try discriminate; [reflexivity|].
  cbn in E. injection E as Exy E. cbn [unique_pks].
  rewrite (IH rows' E), Exy. f_equal. f_equal.
  unfold has_pk. clear IH. revert rows' E.
  induction rows as [|a rows IH]; intros [|b rows'] E; try discriminate;
    [reflexivity|].
  cbn in E. injection E as Eab E. cbn. now rewrite Eab, (IH rows' E).
Qed.

Lemma unique_pks_app_fresh {T} `{Model T} (r : T) (rows : list T) :
  unique_pks rows = true -> has_pk (pk r) rows = false ->
  unique_pks (rows ++ [r]) = true.
Proof.
  induction rows as [|x rows IH]; intros Hu Hn; [reflexivity|].
  cbn [unique_pks app] in *. apply andb_prop in Hu. destruct Hu as [Hx Hu].
  unfold has_pk in Hn. cbn in Hn. apply orb_false_elim in Hn.
  destruct Hn as [Hxr Hn].
  rewrite has_pk_app. apply negb_true_iff in Hx. rewrite Hx.
  unfold has_pk at 1. cbn. rewrite Z.eqb_sym, Hxr. cbn.
  now apply IH.
Qed.

Lemma unique_pks_db_save {T} `{Model T} (r : T) (rows : list T) :
  unique_pks rows = true -> unique_pks (db_save r rows) = true.
Proof.
  intros Hu. unfold db_save. destruct (has_pk (pk r) rows) eqn:Hr.
  - now rewrite (unique_pks_by_keys _ rows (pk_db_update r rows)).
  - now apply unique_pks_app_fresh.
Qed.

Lemma has_pk_db_delete {T} `{Model T} (k k' : Z) (rows : list T) :
  k <> k' -> has_pk k (db_delete k' rows) = has_pk k rows.
Proof.
  intros Hne. unfold has_pk, db_delete.
  induction rows as [|x rows IH]; [reflexivity|]. cbn.
  destruct (Z.eqb_spec (pk x) k') as [E|E]; cbn.
  - destruct (Z.eqb_spec (pk x) k); [congruence | exact IH].
  - now rewrite IH.
Qed.

Lemma has_pk_db_delete_le {T} `{Model T} (k k' : Z) (rows : list T) :
  has_pk k (db_delete k' rows) = true -> has_pk k rows = true.
Proof.
  unfold has_pk, db_delete. rewrite !existsb_exists.
  intros [x [Hx Hk]]. apply filter_In in Hx. exists x. tauto.
Qed.

Lemma unique_pks_db_delete {T} `{Model T} (k : Z) (rows : list T) :
  unique_pks rows = true -> unique_pks (db_delete k rows) = true.
Proof.
  induction rows as [|x rows IH]; intros Hu; [reflexivity|].
  cbn [unique_pks] in Hu. apply andb_prop in Hu. destruct Hu as [Hx Hu].
  unfold db_delete. cbn [filter]. fold (db_delete k rows).
  destruct (negb (pk x =? k)); [|now apply IH].
  cbn [unique_pks]. rewrite (IH Hu), andb_true_r.
  apply negb_true_iff in Hx. apply negb_true_iff.
  destruct (has_pk (pk x) (db_delete k rows)) eqn:E; [|reflexivity].
  apply has_pk_db_delete_le in E. congruence.
Qed.

Lemma integrity_transfer (db db' : DB) :
  composition_table db' = composition_table db ->
  component_table db' = component_table db ->
  (forall k, has_pk k (product_table db) = true ->
             has_pk k (product_table db') = true) ->
  integrity db = true -> integrity db' = true.
Proof.
  intros Hk Hc Hp. unfold integrity. rewrite Hk. intros Hi.
  apply andb_prop in Hi. destruct Hi as [Hu Hf]. rewrite Hu. cbn.
  rewrite forallb_forall in *. intros c Hin. specialize (Hf c Hin).
  unfold fk_resolves in *. rewrite Hc. apply andb_prop in Hf.
  destruct Hf as [Hprod Hcomp]. now rewrite Hcomp, (Hp _ Hprod).
Qed.

Lemma integrity_with_compositions_save (c : ProductComposition.t) (db : DB) :
  integrity db = true -> fk_resolves db c = true ->
  integrity (with_compositions (db_save c (composition_table db)) db) = true.
Proof.
  unfold integrity. intros Hi Hfk. apply andb_prop in Hi. destruct Hi as [Hu Hf].
  cbn [composition_table with_compositions].
  rewrite (unique_pks_db_save c _ Hu). cbn.
  exact (forallb_db_save (fk_resolves db) c _ Hfk Hf).
Qed.

Lemma integrity_with_compositions_delete (k : Z) (db : DB) :
  integrity db = true ->
  integrity (with_compositions (db_delete k (composition_table db)) db) = true.
Proof.
  unfold integrity. intros Hi. apply andb_prop in Hi. destruct Hi as [Hu Hf].
  cbn [composition_table with_compositions].
  rewrite (unique_pks_db_delete k _ Hu). cbn.
  exact (forallb_db_delete (fk_resolves db) k _ Hf).
Qed.

Lemma has_pk_recompute_rows (db : DB) (k : Z) (l : list ProductComposition.t) :
  forall rows,
    has_pk k rows = true ->
    has_pk k (fold_left (fun rows c =>
                           recompute_row db (ProductComposition.product c) rows)
                        l rows) = true.
Proof.
  induction l as [|c l IH]; intros rows Hk; cbn [fold_left]; [exact Hk|].
  apply IH. now apply has_pk_recompute_row.
Qed.

(** X12. Referential integrity (unique composition keys, both foreign keys
    of every composition resolved) is kept by every write of the cascade: a
    product write, the write of a composition whose foreign keys resolve,
    the deletion of a composition, a component write, and the deletion of a
    component, which either removes an unreferenced row or is refused. *)
Theorem X12_integrity_is_an_invariant (db : DB) :
  integrity db = true ->
  (forall p, integrity (fst (Product_save p db)) = true)
  /\ (forall c, fk_resolves db c = true ->
                integrity (fst (ProductComposition_save c db)) = true)
  /\ (forall c, integrity (fst (ProductComposition_delete c db)) = true)
  /\ (forall x, integrity (fst (ProductComponent_save x db)) = true)
  /\ (forall x, integrity (fst (ProductComponent_delete x db)) = true).
Proof.
  intros Hi. split; [|split; [|split; [|split]]].
  - intros p.
    rewrite (Product_save_run db p (integrity_components_present db _ Hi)).
    now apply integrity_product_saved.
  - intros c Hfk. destruct (fk_resolves_product db c Hfk) as [p0 Hp0].
    pose proof Hi as Hi'. unfold integrity in Hi'. apply andb_prop in Hi'.
    destruct Hi' as [_ Hf].
    rewrite (ProductComposition_save_run db c p0 Hf Hfk Hp0). cbn [fst].
    apply integrity_product_saved.
    now apply integrity_with_compositions_save.
  - intros c.
    pose proof (integrity_with_compositions_delete
                  (ProductComposition.id c) db Hi) as Hi1.
    set (db1 := with_compositions
                  (db_delete (ProductComposition.id c) (composition_table db)) db)
      in *.
    unfold ProductComposition_delete, bind, execute. fold db1.
    destruct (objects_get (ProductComposition.product c) (product_table db1))
      as [p0|] eqn:Hp0.
    + rewrite (save_product_after_delete_run db1 c p0 Hp0
                 (integrity_components_present db1 _ Hi1)).
      now apply integrity_product_saved.
    + unfold save_product_after_delete, bind, fetch. now rewrite Hp0.
  - intros x. destruct (ProductComponent_save_products x db Hi)
      as [db' [Hrun [Hprod [Hcomp Hcompo]]]].
    rewrite Hrun. cbn [fst].
    apply (integrity_transfer
             (with_components
                (db_save (add_new_arrival x) (component_table db)) db) db').
    + exact Hcompo.
    + exact Hcomp.
    + intros k Hk. rewrite Hprod. now apply has_pk_recompute_rows.
    + now apply integrity_with_components.
  - intros x.
    unfold ProductComponent_delete, bind, productcomposition_set_of_component,
      query.
    destruct (filter _ (composition_table db)) as [|k ks] eqn:Hnone;
      [|exact Hi].
    cbn [fst execute]. unfold integrity in *.
    cbn [composition_table with_components].
    apply andb_prop in Hi. destruct Hi as [Hu Hf]. rewrite Hu. cbn.
    rewrite forallb_forall in *. intros c Hin. specialize (Hf c Hin).
    unfold fk_resolves in *.
    cbn [product_table component_table with_components].
    apply andb_prop in Hf. destruct Hf as [Hp Hx]. rewrite Hp. cbn.
    rewrite has_pk_db_delete; [exact Hx|].
    intros E.
    assert (Hc : In c (filter (fun c0 => ProductComposition.component c0
                                         =? ProductComponent.id x)
                              (composition_table db)))
      by (apply filter_In; split; [exact Hin | now apply Z.eqb_eq]).
    rewrite Hnone in Hc. contradiction.
Qed.

(** ** The declared choices *)

(** X13. [get_status] only ever answers with a key of [STATUS_CHOICES], but
    the status a product write stores when the component of the first
    composition is not available, [STATUS_UNAVAILABLE], is not such a key:
    the fourth entry of [STATUS_CHOICES] repeats [STATUS_AVAILABLE]. *)
Theorem X13_forced_status_is_not_a_declared_choice
        (p : Product.t) (c : ProductComposition.t)
        (cs : list ProductComposition.t) (db : DB) :
  integrity db = true ->
  compositions_of (Product.id p) db = c :: cs ->
  component_available db c = false ->
  exists db' p' s,
    get_status p db = (db, inr s)
    /\ is_choice STATUS_CHOICES s = true
    /\ Product_save p db = (db', inr p')
    /\ objects_get (Product.id p) (product_table db') = Some p'
    /\ is_choice STATUS_CHOICES (Product.status p') = false.
Proof.
  intros Hi Hfirst Hunavailable.
  pose proof (integrity_components_present db (Product.id p) Hi) as Hc.
  exists (product_saved (presaved db p) db), (presaved db p),
    (status_by_stock db (Product.id p)).
  split; [now apply get_status_run|]. split.
  { unfold status_by_stock.
    now destruct (available_quantity db (Product.id p) >? 0). }
  split; [now apply Product_save_run|]. split.
  { rewrite <- (presaved_id db p). exact (product_saved_row (presaved db p) db). }
  unfold presaved.
  rewrite (first_component_status_available db _ Hc), Hfirst, Hunavailable.
  reflexivity.
Qed.

(** ** Restocking *)

Lemma available_quantity_ext (db db' : DB) (pid : Z) :
  component_table db = component_table db' ->
  composition_table db = composition_table db' ->
  available_quantity db pid = available_quantity db' pid.
Proof.
  intros Hc Hk.
  unfold available_quantity, units, stock_of, component_of, compositions_of.
  now rewrite Hc, Hk.
Qed.

Lemma fold_min_mono {A} (f g : A -> Z) (l : list A) (a b : Z) :
  a <= b ->
  (forall c, In c l -> f c <= g c) ->
  fold_right Z.min a (map f l) <= fold_right Z.min b (map g l).
Proof.
  intros Hab. induction l as [|y l IH]; intros Hfg; cbn; [exact Hab|].
  assert (f y <= g y) by (apply Hfg; now left).
  assert (fold_right Z.min a (map f l) <= fold_right Z.min b (map g l))
    by (apply IH; intros c Hc; apply Hfg; now right).
  lia.
Qed.

Lemma stock_of_after_restock (x x0 : ProductComponent.t) (db : DB)
      (c : ProductComposition.t) :
  objects_get (ProductComponent.id x) (component_table db) = Some x0 ->
  ProductComponent.quantity_in_stock x0
  <= ProductComponent.quantity_in_stock x + ProductComponent.new_arrival x ->
  stock_of db c
  <= stock_of
       (with_components (db_save (add_new_arrival x) (component_table db)) db) c.
Proof.
  intros Hx0 Hle. unfold stock_of, component_of.
  cbn [component_table with_components].
  destruct (Z.eq_dec (ProductComposition.component c) (ProductComponent.id x))
    as [E|E].
  - rewrite E, Hx0.
    change (ProductComponent.id x) with (pk (add_new_arrival x)).
    rewrite objects_get_save_same. exact Hle.
  - rewrite objects_get_save_other by exact E. lia.
Qed.

(** X14. A component write that does not lower the stock of the component
    (the stock and new arrival of the instance add up to at least the stock
    of the stored row) never lowers the available quantity of any product. *)
Theorem X14_restocking_never_lowers_availability
        (x x0 : ProductComponent.t) (p : Product.t) (db : DB) :
  integrity db = true ->
  objects_get (ProductComponent.id x) (component_table db) = Some x0 ->
  ProductComponent.quantity_in_stock x0
  <= ProductComponent.quantity_in_stock x + ProductComponent.new_arrival x ->
  exists db' n n',
    ProductComponent_save x db = (db', inr (add_new_arrival x))
    /\ get_available_quantity_of_products p db = (db, inr n)
    /\ get_available_quantity_of_products p db' = (db', inr n')
    /\ n <= n'.
Proof.
  intros Hi Hx0 Hle.
  destruct (ProductComponent_save_products x db Hi)
    as [db' [Hrun [Hprod [Hcomp Hcompo]]]].
  set (written := with_components
                    (db_save (add_new_arrival x) (component_table db)) db) in *.
  assert (Hi' : integrity db' = true).
  { apply (integrity_transfer written db'); try assumption.
    - intros k Hk. rewrite Hprod. now apply has_pk_recompute_rows.
    - now apply integrity_with_components. }
  exists db', (available_quantity db (Product.id p)),
    (available_quantity db' (Product.id p)).
  split; [exact Hrun|].
  split; [apply get_available_quantity_of_products_run;
          now apply integrity_components_present|].
  split; [apply get_available_quantity_of_products_run;
          now apply integrity_components_present|].
  rewrite (available_quantity_ext db' written _ Hcomp Hcompo).
  unfold available_quantity, units.
  change (compositions_of (Product.id p) written)
    with (compositions_of (Product.id p) db).
  set (l := filter (fun c => 0 <? ProductComposition.quantity c)
                   (compositions_of (Product.id p) db)).
  assert (Hl : forall c, In c l ->
                 stock_of db c / ProductComposition.quantity c
                 <= stock_of written c / ProductComposition.quantity c).
  { intros c Hc. apply filter_In in Hc. destruct Hc as [_ Hq].
    apply Z.ltb_lt in Hq. apply Z.div_le_mono; [exact Hq|].
    now apply (stock_of_after_restock x x0). }
  destruct l as [|c l']; [cbn; lia|]. cbn [map]. rewrite !py_min_spec.
  apply fold_min_mono.
  - apply Hl. now left.
  - intros k Hk. apply Hl. now right.
Qed.

End Cascade.

(** * The claims at work in the small shop *)

Lemma C3_witness :
  integrity (shop_with_orders [LineItem.bouquet_on_order]) = true
  /\ exists db' p' v,
       Product_save LineItem.id LineItem.product LineItem.resync bouquet
                    (shop_with_orders [LineItem.bouquet_on_order])
       = (db', inr p')
       /\ (Product.new_price p' == 80)%Q
       /\ Product_new_price_column p' = Some v
       /\ (v == 80)%Q.
Proof.
  split; [reflexivity|].
  destruct (C3_new_price_exact_on_the_instance_rounded_in_the_column
              LineItem.id LineItem.product LineItem.resync bouquet
              (shop_with_orders [LineItem.bouquet_on_order]) eq_refl)
    as [db' [p' [Hrun [_ [Hprice [Hdisc [Hexact [_ H80]]]]]]]].
  destruct (H80 (Qeq_refl _) eq_refl) as [v [Hv Hv80]].
  exists db', p', v. split; [exact Hrun|]. split; [|split; assumption].
  rewrite Hexact, Hprice, Hdisc. reflexivity.
Defined.

Lemma C2_witness :
  integrity (shop_with_orders [LineItem.bouquet_on_order]) = true
  /\ fk_resolves (shop_with_orders [LineItem.bouquet_on_order])
                 roses_in_bouquet = true
  /\ (exists db' p,
         ProductComposition_save LineItem.id LineItem.product LineItem.resync
           roses_in_bouquet (shop_with_orders [LineItem.bouquet_on_order])
         = (db', inr tt)
         /\ objects_get 1 (product_table db') = Some p
         /\ (Product.price p == 10)%Q)
  /\ (exists db' p,
         ProductComposition_delete LineItem.id LineItem.product LineItem.resync
           roses_in_bouquet (shop_with_orders [LineItem.bouquet_on_order])
         = (db', inr tt)
         /\ objects_get 1 (product_table db') = Some p
         /\ (Product.price p == 0)%Q).
Proof.
  split; [reflexivity|]. split; [reflexivity|].
  destruct (C2_price_is_sum_over_remaining_compositions
              LineItem.id LineItem.product LineItem.resync
              roses_in_bouquet (shop_with_orders [LineItem.bouquet_on_order])
              eq_refl eq_refl)
    as [[db1 [p1 [Hrun1 [Hk1 [Hc1 [Hp1 [Hsum1 _]]]]]]]
        [db2 [p2 [Hrun2 [_ [_ [Hp2 [_ [Hzero _]]]]]]]]].
  split.
  - exists db1, p1. split; [exact Hrun1|]. split; [exact Hp1|].
    rewrite Hsum1, (sum_of_line_costs_ext db1 shop _ Hc1 Hk1). reflexivity.
  - exists db2, p2. split; [exact Hrun2|]. split; [exact Hp2|].
    apply Hzero. reflexivity.
Defined.

Lemma C7_witness :
  integrity (@shop LineItem.t) = true
  /\ In roses_in_bouquet (composition_table (@shop LineItem.t))
  /\ exists db1 db2 r,
       save_product_after_save LineItem.id LineItem.product LineItem.resync
                               roses_in_bouquet shop = (db1, inr tt)
       /\ save_product_after_save LineItem.id LineItem.product LineItem.resync
                                  roses_in_bouquet db1 = (db2, inr tt)
       /\ objects_get 1 (product_table db1) = Some r
       /\ objects_get 1 (product_table db2) = Some r.
Proof.
  split; [reflexivity|]. split; [left; reflexivity|].
  destruct (C7_recomputation_is_idempotent
              LineItem.id LineItem.product LineItem.resync
              roses_in_bouquet bouquet shop eq_refl (or_introl eq_refl))
    as [[db1 [db2 [r [Hrun1 [Hrun2 [Hr1 [Hr2 _]]]]]]] _].
  exists db1, db2, r. auto.
Defined.

Lemma C8_witness :
  In roses_in_bouquet (composition_table (@shop LineItem.t))
  /\ ProductComposition.component roses_in_bouquet = ProductComponent.id rose
  /\ ProductComponent_delete rose (@shop LineItem.t) = (shop, inl ProtectedError).
Proof.
  split; [left; reflexivity|]. split; [reflexivity|].
  exact (C8_referenced_component_is_protected
           rose roses_in_bouquet shop (or_introl eq_refl) eq_refl).
Defined.

Lemma C6_witness :
  integrity (@shop LineItem.t) = true
  /\ exists db' r,
       ProductComponent_save LineItem.id LineItem.product LineItem.resync
                             rose_sold_out shop
       = (db', inr rose_sold_out)
       /\ objects_get 1 (product_table db') = Some r
       /\ (Product.price r == 10)%Q
       /\ Product.status r = STATUS_ONLY_ORDER.
Proof.
  split; [reflexivity|].
  destruct (C6_component_write_recomputes_every_owner
              LineItem.id LineItem.product LineItem.resync
              rose_sold_out shop eq_refl)
    as [db' [Hrun [Hc [_ [Hk [Hrows _]]]]]].
  destruct (Hrows roses_in_bouquet (or_introl eq_refl) eq_refl)
    as [r [Hr [Hprice [Hstatus _]]]].
  exists db', r. split; [exact Hrun|]. split; [exact Hr|]. split.
  - rewrite Hprice.
    rewrite (sum_of_line_costs_ext db' (with_components [rose_sold_out] shop)
                                   _ Hc Hk).
    reflexivity.
  - rewrite Hstatus.
    rewrite (derived_status_ext db' (with_components [rose_sold_out] shop)
                                _ Hc Hk).
    reflexivity.
Defined.

Lemma C4_witness :
  integrity (@shop LineItem.t) = true
  /\ fk_resolves (@shop LineItem.t) roses_in_bouquet = true
  /\ compositions_of 1 (@shop LineItem.t) = [roses_in_bouquet]
  /\ ProductComponent.quantity_in_stock rose_sold_out
     + ProductComponent.new_arrival rose_sold_out = 0
  /\ exists db' p,
       ProductComponent_save LineItem.id LineItem.product LineItem.resync
                             rose_sold_out shop
       = (db', inr rose_sold_out)
       /\ objects_get 1 (product_table db') = Some p
       /\ Product.status p = STATUS_ONLY_ORDER.
Proof.
  split; [reflexivity|]. split; [reflexivity|]. split; [reflexivity|].
  split; [reflexivity|].
  destruct (C4_status_follows_stock
              LineItem.id LineItem.product LineItem.resync
              roses_in_bouquet rose_sold_out shop eq_refl eq_refl)
    as [_ [_ Hsole]].
  destruct (Hsole eq_refl eq_refl eq_refl)
    as [db' [x' [p [Hrun [_ [_ [_ [Hp Hstatus]]]]]]]].
  exists db', p. split; [|split; [exact Hp | exact Hstatus]].
  rewrite Hrun. f_equal.
  pose proof Hrun as Hrun'.
  unfold ProductComponent_save, recalculate_quantity_in_stock_before_save,
    bind, ret, execute in Hrun'.
  destruct (save_productcomposition _ _ _ _ _) as [d [e|u]];
    [discriminate|].
  now injection Hrun' as _ <-.
Defined.

Lemma C9_witness :
  integrity (@shop LineItem.t) = true
  /\ (exists n s,
         get_available_quantity_of_products bouquet (@shop LineItem.t)
         = (shop, inr n)
         /\ get_status bouquet (@shop LineItem.t) = (shop, inr s))
  /\ forallb (fun c => ProductComposition.quantity c =? 0)
             (compositions_of (Product.id wreath) (@shop LineItem.t)) = true
  /\ get_available_quantity_of_products wreath (@shop LineItem.t) = (shop, inr 0)
  /\ get_status wreath (@shop LineItem.t) = (shop, inr STATUS_ONLY_ORDER).
Proof.
  split; [reflexivity|].
  split.
  - exact (proj1 (proj2 (proj2 (C9_availability_is_total bouquet shop)))
                 eq_refl).
  - split; [reflexivity|].
    exact (proj2 (proj2 (proj2 (C9_availability_is_total wreath shop)))
                 eq_refl).
Defined.

(** ** Where the claims, as first stated, fail *)

(** C2, as first stated, fails when a write moves a composition.  In
    [settled_shop] every price is the sum of the line costs.  The composition
    with primary key 1 is saved with the wreath as its product: the wreath
    is recomputed, the posy is not, and its row keeps the price 10 although
    it has no composition left. *)
Lemma C2_counterexample :
  integrity (@settled_shop LineItem.t) = true
  /\ (Product.price posy == sum_of_line_costs (@settled_shop LineItem.t) 1)%Q
  /\ (Product.price wreath == sum_of_line_costs (@settled_shop LineItem.t) 2)%Q
  /\ fk_resolves (@settled_shop LineItem.t) roses_moved_to_wreath = true
  /\ exists db' p,
       ProductComposition_save LineItem.id LineItem.product LineItem.resync
                               roses_moved_to_wreath settled_shop
       = (db', inr tt)
       /\ compositions_of 1 db' = []
       /\ objects_get 1 (product_table db') = Some p
       /\ (Product.price p == 10)%Q
       /\ (sum_of_line_costs db' 1 == 0)%Q
       /\ ~ (Product.price p == sum_of_line_costs db' 1)%Q.
Proof.
  split; [reflexivity|]. split; [reflexivity|]. split; [reflexivity|].
  split; [reflexivity|].
  exists (fst (ProductComposition_save
                 LineItem.id LineItem.product LineItem.resync
                 roses_moved_to_wreath settled_shop)), posy.
  split; [vm_compute; reflexivity|]. split; [vm_compute; reflexivity|].
  split; [vm_compute; reflexivity|]. split; [reflexivity|].
  split; [vm_compute; reflexivity|].
  intros H. vm_compute in H. discriminate.
Qed.

(** C4, as first stated, fails at the same write.  The posy has just lost
    its only composition, so no component of it is unavailable and nothing
    can be made of it, yet its row keeps the status "available". *)
Lemma C4_counterexample :
  integrity (@settled_shop LineItem.t) = true
  /\ fk_resolves (@settled_shop LineItem.t) roses_moved_to_wreath = true
  /\ compositions_of 1 (@settled_shop LineItem.t) = [roses_in_bouquet]
  /\ exists db' p,
       ProductComposition_save LineItem.id LineItem.product LineItem.resync
                               roses_moved_to_wreath settled_shop
       = (db', inr tt)
       /\ compositions_of 1 db' = []
       /\ all_components_available db' 1 = true
       /\ objects_get 1 (product_table db') = Some p
       /\ Product.status p = STATUS_AVAILABLE
       /\ status_from_minimum db' 1 = STATUS_ONLY_ORDER
       /\ Product.status p <> status_from_minimum db' 1.
Proof.
  split; [reflexivity|]. split; [reflexivity|]. split; [reflexivity|].
  exists (fst (ProductComposition_save
                 LineItem.id LineItem.product LineItem.resync
                 roses_moved_to_wreath settled_shop)), posy.
  split; [vm_compute; reflexivity|]. split; [vm_compute; reflexivity|].
  split; [vm_compute; reflexivity|]. split; [vm_compute; reflexivity|].
  split; [reflexivity|]. split; [vm_compute; reflexivity|].
  vm_compute. discriminate.
Qed.

(** C3, as first stated, fails at a price of 0.33 with a discount of 50.
    The receiver assigns 0.165; the column keeps 0.16, and no value of two
    decimal places is 0.165, whichever way a column rounds. *)
Lemma C3_counterexample :
  integrity (@shop LineItem.t) = true
  /\ exists db' p',
       Product_save LineItem.id LineItem.product LineItem.resync
                    posy_half_off shop = (db', inr p')
       /\ objects_get 1 (product_table db') = Some p'
       /\ Product_price_column p' = Some (33 # 100)
       /\ (Product.new_price p' == 165 # 1000)%Q
       /\ Product_new_price_column p' = Some (16 # 100)
       /\ ~ (16 # 100 == (33 # 100) * inject_Z (100 - 50) / 100)%Q
       /\ forall cents : Z,
            ~ (cents # 100 == (33 # 100) * inject_Z (100 - 50) / 100)%Q.
Proof.
  split; [reflexivity|].
  exists (fst (Product_save LineItem.id LineItem.product LineItem.resync
                            posy_half_off shop)),
    (Product.set_new_price (get_new_price posy_half_off) posy_half_off).
  split; [vm_compute; reflexivity|]. split; [vm_compute; reflexivity|].
  split; [vm_compute; reflexivity|]. split; [vm_compute; reflexivity|].
  split; [vm_compute; reflexivity|].
  split.
  - intros H. vm_compute in H. discriminate.
  - intros cents H. unfold Qeq in H. cbn in H. lia.
Qed.

(** * The further properties at work in the small shop *)

Lemma X1_witness :
  integrity (@lily_then_rose_shop LineItem.t) = true
  /\ exists db' p',
       Product_save LineItem.id LineItem.product LineItem.resync
                    bouquet lily_then_rose_shop = (db', inr p')
       /\ Product.status p' = STATUS_UNAVAILABLE.
Proof.
  split; [reflexivity|].
  destruct (X1_product_write_status
              LineItem.id LineItem.product LineItem.resync
              bouquet lily_then_rose_shop eq_refl)
    as [db' [p' [Hrun [_ [Hstatus _]]]]].
  exists db', p'. split; [exact Hrun | exact Hstatus].
Defined.

Lemma X2_witness :
  integrity (@shop LineItem.t) = true
  /\ fk_resolves (@shop LineItem.t) one_more_rose = true
  /\ exists db' p,
       ProductComposition_save LineItem.id LineItem.product LineItem.resync
                               one_more_rose shop = (db', inr tt)
       /\ objects_get 1 (product_table db') = Some p
       /\ Product.status p <> STATUS_REVIEW.
Proof.
  split; [reflexivity|]. split; [reflexivity|].
  destruct (X2_recomputation_leaves_review
              LineItem.id LineItem.product LineItem.resync
              one_more_rose shop eq_refl eq_refl)
    as [[db' [p [Hrun [Hp [_ Hnot]]]]] _].
  exists db', p. split; [exact Hrun|]. split; [exact Hp | exact Hnot].
Defined.

Lemma X3_witness :
  integrity (@shop LineItem.t) = true
  /\ exists n,
       get_available_quantity_of_products bouquet (@shop LineItem.t)
       = (shop, inr n)
       /\ n * 2 <= 10 < (n + 1) * 2.
Proof.
  split; [reflexivity|].
  destruct (X3_available_quantity_is_the_supply bouquet (@shop LineItem.t) eq_refl)
    as [n [Hrun [Hle [Hlt _]]]].
  exists n. split; [exact Hrun|].
  pose proof (Hle roses_in_bouquet (or_introl eq_refl) eq_refl) as H1.
  destruct (Hlt roses_in_bouquet (or_introl eq_refl) eq_refl)
    as [c' [[<-|[]] [_ H2]]].
  split; [exact H1 | exact H2].
Defined.

Lemma X4_witness :
  integrity (@shop LineItem.t) = true
  /\ get_status bouquet (@shop LineItem.t) = (shop, inr STATUS_AVAILABLE).
Proof.
  split; [reflexivity|].
  destruct (X4_available_means_one_unit_can_be_made
              bouquet (@shop LineItem.t) eq_refl)
    as [s [Hrun [_ Hiff]]].
  rewrite Hrun. f_equal. f_equal. apply Hiff. split.
  - exists roses_in_bouquet. split; [left; reflexivity | reflexivity].
  - intros c [<-|[]] _. discriminate.
Defined.

Lemma X5_witness :
  integrity (@shop LineItem.t) = true
  /\ 0 <= Product.discount bouquet <= 100
  /\ (0 <= Product.price bouquet)%Q
  /\ exists db' p',
       Product_save LineItem.id LineItem.product LineItem.resync bouquet shop
       = (db', inr p')
       /\ (0 <= Product.new_price p')%Q
       /\ (Product.new_price p' <= Product.price p')%Q.
Proof.
  assert (Hd : 0 <= Product.discount bouquet <= 100) by (cbn; lia).
  assert (Hprice : (0 <= Product.price bouquet)%Q) by discriminate.
  split; [reflexivity|]. split; [exact Hd|]. split; [exact Hprice|].
  destruct (X5_new_price_between_zero_and_price
              LineItem.id LineItem.product LineItem.resync bouquet shop eq_refl
              Hd Hprice)
    as [db' [p' [Hrun [_ [Hlo [Hhi _]]]]]].
  exists db', p'. split; [exact Hrun|]. split; [exact Hlo | exact Hhi].
Defined.

Lemma X6_witness :
  integrity (@shop LineItem.t) = true
  /\ fk_resolves (@shop LineItem.t) one_more_rose = true
  /\ has_pk (ProductComposition.id one_more_rose)
            (composition_table (@shop LineItem.t)) = false
  /\ exists db' p,
       ProductComposition_save LineItem.id LineItem.product LineItem.resync
                               one_more_rose shop = (db', inr tt)
       /\ objects_get 1 (product_table db') = Some p
       /\ (Product.price p == 15)%Q.
Proof.
  split; [reflexivity|]. split; [reflexivity|]. split; [reflexivity|].
  destruct (X6_new_composition_adds_its_line_cost
              LineItem.id LineItem.product LineItem.resync
              one_more_rose shop eq_refl eq_refl eq_refl)
    as [db' [p [Hrun [_ [Hp Hprice]]]]].
  exists db', p. split; [exact Hrun|]. split; [exact Hp|].
  rewrite Hprice. reflexivity.
Defined.

Lemma X7_witness :
  integrity (@shop LineItem.t) = true
  /\ In roses_in_bouquet (composition_table (@shop LineItem.t))
  /\ exists db' p,
       ProductComposition_delete LineItem.id LineItem.product LineItem.resync
                                 roses_in_bouquet shop = (db', inr tt)
       /\ objects_get 1 (product_table db') = Some p
       /\ (10 == Product.price p + 10)%Q.
Proof.
  split; [reflexivity|]. split; [left; reflexivity|].
  destruct (X7_deleted_composition_takes_its_line_cost
              LineItem.id LineItem.product LineItem.resync
              roses_in_bouquet shop eq_refl (or_introl eq_refl))
    as [db' [p [Hrun [Hp Hprice]]]].
  exists db', p. split; [exact Hrun|]. split; [exact Hp|].
  rewrite <- Hprice. reflexivity.
Defined.

Lemma X8_witness :
  compositions_using (ProductComponent.id lily) (@shop LineItem.t) = []
  /\ ProductComponent_save LineItem.id LineItem.product LineItem.resync lily shop
     = (with_components [rose; lily] shop, inr lily).
Proof.
  split; [reflexivity|].
  exact (X8_unused_component_write_stays_local
           LineItem.id LineItem.product LineItem.resync lily shop eq_refl).
Defined.

Lemma X9_witness :
  integrity (@two_product_shop LineItem.t) = true
  /\ exists db',
       ProductComponent_save LineItem.id LineItem.product LineItem.resync
                             rose_sold_out two_product_shop
       = (db', inr rose_sold_out)
       /\ objects_get (Product.id wreath) (product_table db') = Some wreath.
Proof.
  split; [reflexivity|].
  destruct (X9_component_write_spares_other_products
              LineItem.id LineItem.product LineItem.resync
              rose_sold_out (Product.id wreath) two_product_shop eq_refl)
    as [db' [Hrun Hother]].
  - intros c [<-|[]] _; discriminate.
  - exists db'. split; [exact Hrun | exact Hother].
Defined.

Lemma X10_witness :
  integrity (@shop LineItem.t) = true
  /\ exists db1 db2 x',
       ProductComponent_save LineItem.id LineItem.product LineItem.resync
                             rose_restocked shop = (db1, inr x')
       /\ ProductComponent_save LineItem.id LineItem.product LineItem.resync
                                x' db1 = (db2, inr x')
       /\ catalog db2 = catalog db1.
Proof.
  split; [reflexivity|].
  destruct (X10_component_write_is_idempotent
              LineItem.id LineItem.product LineItem.resync
              rose_restocked shop eq_refl)
    as [db1 [db2 [x' [Hrun1 [Hrun2 [_ Hsame]]]]]].
  exists db1, db2, x'. auto.
Defined.

Lemma X12_witness :
  integrity (@shop LineItem.t) = true
  /\ integrity
       (fst (ProductComponent_save LineItem.id LineItem.product LineItem.resync
                                   rose_restocked shop)) = true
  /\ integrity (fst (ProductComponent_delete rose (@shop LineItem.t))) = true.
Proof.
  split; [reflexivity|].
  destruct (X12_integrity_is_an_invariant
              LineItem.id LineItem.product LineItem.resync shop eq_refl)
    as [_ [_ [_ [Hsave Hdelete]]]].
  split; [apply Hsave | apply Hdelete].
Defined.

Lemma X13_witness :
  integrity (@lily_first_shop LineItem.t) = true
  /\ compositions_of (Product.id bouquet) (@lily_first_shop LineItem.t)
     = [lilies_in_bouquet; roses_in_bouquet]
  /\ component_available (@lily_first_shop LineItem.t) lilies_in_bouquet = false
  /\ exists db' p',
       Product_save LineItem.id LineItem.product LineItem.resync
                    bouquet lily_first_shop = (db', inr p')
       /\ is_choice STATUS_CHOICES (Product.status p') = false.
Proof.
  split; [reflexivity|]. split; [reflexivity|]. split; [reflexivity|].
  destruct (X13_forced_status_is_not_a_declared_choice
              LineItem.id LineItem.product LineItem.resync
              bouquet lilies_in_bouquet [roses_in_bouquet] lily_first_shop
              eq_refl eq_refl eq_refl)
    as [db' [p' [s [_ [_ [Hrun [_ Hnot]]]]]]].
  exists db', p'. split; [exact Hrun | exact Hnot].
Defined.

Lemma X14_witness :
  integrity (@shop LineItem.t) = true
  /\ objects_get (ProductComponent.id rose_restocked)
                 (component_table (@shop LineItem.t)) = Some rose
  /\ ProductComponent.quantity_in_stock rose
     <= ProductComponent.quantity_in_stock rose_restocked
        + ProductComponent.new_arrival rose_restocked
  /\ exists db' n n',
       ProductComponent_save LineItem.id LineItem.product LineItem.resync
                             rose_restocked shop
       = (db', inr (add_new_arrival rose_restocked))
       /\ get_available_quantity_of_products bouquet (@shop LineItem.t)
          = (shop, inr n)
       /\ get_available_quantity_of_products bouquet db' = (db', inr n')
       /\ n <= n'.
Proof.
  assert (Hstock : ProductComponent.quantity_in_stock rose
                   <= ProductComponent.quantity_in_stock rose_restocked
                      + ProductComponent.new_arrival rose_restocked)
    by (cbn; lia).
  split; [reflexivity|]. split; [reflexivity|]. split; [exact Hstock|].
  exact (X14_restocking_never_lowers_availability
           LineItem.id LineItem.product LineItem.resync
           rose_restocked rose bouquet shop eq_refl eq_refl Hstock).
Defined.
